(** * Universum: the GitHub Actions VCS module

    A shallow embedding of [universum/modules/vcs/github_actions_vcs.py]
    (class [GithubActionsMainVcs]) and the properties its specification
    states about it.

    Python [str] values are [String.string]: the text in UTF-8, one [ascii]
    per byte.  Every operation the module and [urllib.parse] apply to a
    string looks for ASCII characters only (separators, the scheme's
    letters, white space), so cutting at bytes and cutting at characters
    agree; what is not ASCII is a byte above 127, and what NFKC makes of a
    text is a collaborator's answer.  JSON documents, as [json.loads]
    returns them, are values of [json].  Python exceptions are values of
    [exn]; a computation that can raise returns an [outcome].  Methods that
    talk to the outside (the HTTP helper, the log) are state transformers
    over a [world] that records every request handed to
    [utils.make_request] and every line handed to [self.out.log].

    What the module calls and does not define is a parameter
    ([collaborators]): [json.loads], the git client, the HTTP helper, the
    bracketed-host check of [urllib.parse] and [unicodedata.normalize].
    [urllib.parse.urlsplit] and [urlunsplit] themselves are embedded, after
    CPython 3.11, because [_clone] is what they compute. *)

From Stdlib Require Import String Ascii List ZArith Bool Arith Lia.
Import ListNotations.

Open Scope list_scope.
Open Scope string_scope.

(** ** Python values *)

#[warnings="-register-all"]
Inductive json : Type :=
| JNull
| JBool (b : bool)
| JInt (n : Z)
| JFloat (literal : string)
| JStr (s : string)
| JList (items : list json)
| JDict (items : list (string * json)).

Inductive exn : Type :=
| KeyError (key : string)
| TypeError (operand : json)
| ValueError (msg : string)
| JSONDecodeError (detail : string)
| ConfigurationError (msg : string)
| RequestError (text : string)
| GitCommandError (text : string).

Inductive outcome (A : Type) : Type :=
| Returns (a : A)
| Raises (e : exn).

Arguments Returns {A} a.
Arguments Raises {A} e.

(** [d[key]] for a dict [d] kept as an association list. *)
Fixpoint dict_get (key : string) (items : list (string * json)) : option json :=
  match items with
  | [] => None
  | (k, v) :: rest => if (k =? key)%string then Some v else dict_get key rest
  end.

(** [obj[key]] with a [str] key: a dict answers or raises [KeyError]; a list,
    a string, a number, a boolean and [None] raise [TypeError]. *)
Definition getitem (obj : json) (key : string) : outcome json :=
  match obj with
  | JDict items =>
      match dict_get key items with
      | Some v => Returns v
      | None => Raises (KeyError key)
      end
  | other => Raises (TypeError other)
  end.

(** [obj[k1][k2]...], subscripts applied left to right. *)
Fixpoint getpath (obj : json) (keys : list string) : outcome json :=
  match keys with
  | [] => Returns obj
  | k :: rest =>
      match getitem obj k with
      | Returns v => getpath v rest
      | Raises e => Raises e
      end
  end.

(** Truth value of a string and of an optional string: [""] and [None] are
    false. *)
Definition nonempty (s : string) : bool := negb (s =? "").

Definition truthy (s : option string) : bool :=
  match s with
  | None => false
  | Some s => nonempty s
  end.

Definition json_of_optional_str (s : option string) : json :=
  match s with
  | None => JNull
  | Some s => JStr s
  end.

Definition newline : ascii := ascii_of_nat 10.

(** [s.split(sep)] for a one-character separator. *)
Fixpoint split (sep : ascii) (s : string) : list string :=
  match s with
  | EmptyString => [EmptyString]
  | String c rest =>
      if Ascii.eqb c sep then EmptyString :: split sep rest
      else match split sep rest with
           | h :: t => String c h :: t
           | [] => [String c EmptyString]
           end
  end.

(** [x in xs] for a list of strings. *)
Definition in_list (x : string) (xs : list string) : bool :=
  existsb (String.eqb x) xs.

(** ** String primitives *)

(** [s[:n]] and [s[n:]] for [n >= 0]. *)
Fixpoint take (n : nat) (s : string) : string :=
  match n, s with
  | S n', String c rest => String c (take n' rest)
  | _, _ => EmptyString
  end.

Fixpoint drop (n : nat) (s : string) : string :=
  match n, s with
  | S n', String _ rest => drop n' rest
  | _, _ => s
  end.

(** [c in s] for a character [c]. *)
Fixpoint in_str (c : ascii) (s : string) : bool :=
  match s with
  | EmptyString => false
  | String a rest => Ascii.eqb a c || in_str c rest
  end.

(** [all(p(c) for c in s)]. *)
Fixpoint all_chars (p : ascii -> bool) (s : string) : bool :=
  match s with
  | EmptyString => true
  | String a rest => p a && all_chars p rest
  end.

(** [s.find(c)]: the first index of [c]; [None] stands for [-1]. *)
Fixpoint find (c : ascii) (s : string) : option nat :=
  match s with
  | EmptyString => None
  | String a rest =>
      if Ascii.eqb a c then Some 0 else option_map S (find c rest)
  end.

(** [s.find(c, start)]. *)
Definition find_from (c : ascii) (s : string) (start : nat) : option nat :=
  if (start <=? String.length s)%nat
  then option_map (Nat.add start) (find c (drop start s))
  else None.

(** [s.lstrip(chars)]. *)
Fixpoint lstrip (chars : string) (s : string) : string :=
  match s with
  | EmptyString => EmptyString
  | String a rest => if in_str a chars then lstrip chars rest else s
  end.

(** [s.replace(b, "")] for a character [b]. *)
Fixpoint remove_char (b : ascii) (s : string) : string :=
  match s with
  | EmptyString => EmptyString
  | String a rest =>
      if Ascii.eqb a b then remove_char b rest
      else String a (remove_char b rest)
  end.

(** [s.partition(sep)] and [s.rpartition(sep)] for a character [sep]; the
    middle component says whether the separator was found. *)
Fixpoint partition (sep : ascii) (s : string) : string * bool * string :=
  match s with
  | EmptyString => (EmptyString, false, EmptyString)
  | String a rest =>
      if Ascii.eqb a sep then (EmptyString, true, rest)
      else let '(before, found, after) := partition sep rest in
           (String a before, found, after)
  end.

Fixpoint rpartition (sep : ascii) (s : string) : string * bool * string :=
  match s with
  | EmptyString => (EmptyString, false, EmptyString)
  | String a rest =>
      let '(before, found, after) := rpartition sep rest in
      if found then (String a before, true, after)
      else if Ascii.eqb a sep then (EmptyString, true, rest)
      else (EmptyString, false, String a after)
  end.

(** [s.split(sep, 1)] when [sep in s]: the text before and after the first
    separator. *)
Definition split1 (sep : ascii) (s : string) : string * string :=
  let '(before, _, after) := partition sep s in (before, after).

Definition is_ascii_alpha (c : ascii) : bool :=
  let n := nat_of_ascii c in
  ((65 <=? n)%nat && (n <=? 90)%nat) || ((97 <=? n)%nat && (n <=? 122)%nat).

(** [s.isascii()] *)
Definition isascii (s : string) : bool :=
  all_chars (fun c => (nat_of_ascii c <? 128)%nat) s.

Definition lower_char (c : ascii) : ascii :=
  let n := nat_of_ascii c in
  if (65 <=? n)%nat && (n <=? 90)%nat then ascii_of_nat (n + 32) else c.

(** [s.lower()], on ASCII letters. *)
Fixpoint lower (s : string) : string :=
  match s with
  | EmptyString => EmptyString
  | String a rest => String (lower_char a) (lower rest)
  end.

(** ** urllib.parse (CPython 3.11): what [_clone] uses *)

Definition uses_netloc : list string :=
  [""; "ftp"; "http"; "gopher"; "nntp"; "telnet";
   "imap"; "wais"; "file"; "mms"; "https"; "shttp";
   "snews"; "prospero"; "rtsp"; "rtspu"; "rsync";
   "svn"; "svn+ssh"; "sftp"; "nfs"; "git"; "git+ssh";
   "ws"; "wss"].

Definition scheme_chars : string :=
  "abcdefghijklmnopqrstuvwxyz"
  ++ "ABCDEFGHIJKLMNOPQRSTUVWXYZ"
  ++ "0123456789"
  ++ "+-.".

(** ["".join([chr(i) for i in range(0, 0x20 + 1)])] *)
Definition _WHATWG_C0_CONTROL_OR_SPACE : string :=
  string_of_list_ascii (map ascii_of_nat (seq 0 33)).

Definition _UNSAFE_URL_BYTES_TO_REMOVE : list ascii :=
  [ascii_of_nat 9; ascii_of_nat 13; ascii_of_nat 10].

Record SplitResult : Type := {
  scheme : string;
  netloc : string;
  path : string;
  query : string;
  fragment : string
}.

Definition _userinfo (r : SplitResult) : option string * option string :=
  let '(userinfo, have_info, hostinfo) := rpartition "@" (netloc r) in
  if have_info then
    let '(username, have_password, password) := partition ":" userinfo in
    (Some username, if have_password then Some password else None)
  else (None, None).

Definition username (r : SplitResult) : option string := fst (_userinfo r).

Definition _splitnetloc (url : string) (start : nat) : string * string :=
  let delim :=
    fold_left
      (fun delim c =>
         match find_from c url start with
         | Some wdelim => Nat.min delim wdelim
         | None => delim
         end)
      ["/"; "?"; "#"]%char (String.length url) in
  (take (delim - start) (drop start url), drop delim url).

Definition urlunsplit (components : SplitResult) : string :=
  let scheme := scheme components in
  let netloc := netloc components in
  let url := path components in
  let query := query components in
  let fragment := fragment components in
  let url :=
    if nonempty netloc
       || (nonempty scheme && in_list scheme uses_netloc
           && negb (take 2 url =? "//"))
    then
      let url :=
        if nonempty url && negb (take 1 url =? "/") then "/" ++ url else url in
      "//" ++ netloc ++ url
    else url in
  let url := if nonempty scheme then scheme ++ ":" ++ url else url in
  let url := if nonempty query then url ++ "?" ++ query else url in
  let url := if nonempty fragment then url ++ "#" ++ fragment else url in
  url.

(** The arguments [_clone] hands to the parent class's [_clone]. *)
Record clone_call : Type := {
  call_history_depth : option Z;
  call_destination_directory : string;
  call_clone_url : string
}.

(** ** The outside world *)

Record request : Type := {
  req_url : json;
  req_method : string;
  req_json : json;
  req_headers : list (string * string);
  req_timeout : Z
}.

Inductive log_line : Type :=
| Log_text (text : string)
| Log_request (body : json).

Record world : Type := {
  sent : list request;
  logged : list log_line
}.

(** What the module calls and does not define: [json.loads], the git client
    behind [self.repo.git.show], the HTTP helper [utils.make_request] (its
    answer may depend on the requests made so far), the host check
    [_check_bracketed_host] of [urllib.parse] and
    [unicodedata.normalize('NFKC', _)]. *)
Record collaborators : Type := {
  json_loads : string -> outcome json;
  git_show : list string -> outcome string;
  make_request : list request -> request -> outcome unit;
  check_bracketed_host : string -> outcome unit;
  normalize_NFKC : string -> string
}.

(** ** Computations: a state-and-exception monad *)

Definition M (A : Type) : Type := world -> outcome A * world.

Definition ret {A} (a : A) : M A := fun w => (Returns a, w).

Definition bind {A B} (m : M A) (k : A -> M B) : M B :=
  fun w =>
    match m w with
    | (Returns a, w') => k a w'
    | (Raises e, w') => (Raises e, w')
    end.

Definition lift {A} (o : outcome A) : M A := fun w => (o, w).

Notation "x <- m ;; k" := (bind m (fun x => k))
  (at level 61, m at next level, right associativity).
Notation "m ;;; k" := (bind m (fun _ => k))
  (at level 61, right associativity).

(** [for x in xs: body(x)]; an exception ends the loop. *)
Fixpoint for_each {A} (xs : list A) (body : A -> M unit) : M unit :=
  match xs with
  | [] => ret tt
  | x :: rest => body x ;;; for_each rest body
  end.

(** ** The object *)

Record settings : Type := {
  token : string;
  checkout_id : string;
  repo : json;
  refspec : json
}.

Record GithubActionsMainVcs : Type := {
  self_settings : settings;
  payload : string;
  payload_json : json
}.

Section Module_body.

Variable env : collaborators.

(** Modelled from the spec: [self.error] is a method of a base class that is
    not under src/.  The specification (Payload Parser contract and error
    taxonomy) has it fail construction with a ConfigurationError that
    carries the message. *)
Definition error {A} (message : string) : M A :=
  lift (Raises (ConfigurationError message)).

Definition decode_failure_message (detail : string) : string :=
  "Provided payload value could not been parsed as JSON "
  ++ "and returned the following error:" ++ String newline (" " ++ detail).

(** Lines 56-62 of [__init__]: [payload_text] is the value the option reader
    returned for [self.payload]; [s] holds the settings read so far. *)
Definition __init__ (s : settings) (payload_text : string)
  : M GithubActionsMainVcs :=
  match json_loads env payload_text with
  | Returns doc =>
      repo_url <- lift (getpath doc ["repository"; "html_url"]) ;;
      ref <- lift (getpath doc ["pull_request"; "head"; "ref"]) ;;
      ret {| self_settings := {| token := token s;
                                 checkout_id := checkout_id s;
                                 repo := repo_url;
                                 refspec := ref |};
             payload := payload_text;
             payload_json := doc |}
  | Raises (JSONDecodeError detail) => error (decode_failure_message detail)
  | Raises other => lift (Raises other)
  end.

Definition get_review_link (self : GithubActionsMainVcs) : outcome json :=
  getpath (payload_json self) ["pull_request"; "html_url"].

Definition is_latest_version (self : GithubActionsMainVcs) : bool := true.

Definition out_log (line : log_line) : M unit :=
  fun w => (Returns tt, {| sent := sent w; logged := (logged w ++ [line])%list |}).

Definition update_review_version (self : GithubActionsMainVcs) : M unit :=
  out_log (Log_text "GitHub has no review versions").

(** The call [utils.make_request(url, request_method="POST", ...)]: the
    request is handed over (and recorded), then the helper answers. *)
Definition call_make_request (r : request) : M unit :=
  fun w => (make_request env (sent w) r,
            {| sent := (sent w ++ [r])%list; logged := logged w |}).

Definition _report (self : GithubActionsMainVcs) (url : json) (body : json)
  : M unit :=
  let headers :=
    [("Accept", "application/vnd.github+json");
     ("Authorization", "Bearer " ++ token (self_settings self))] in
  call_make_request {| req_url := url;
                       req_method := "POST";
                       req_json := body;
                       req_headers := headers;
                       req_timeout := 5 * 60 |}.

(** [git show ...].split('\n')[1:] *)
Definition commit_files_of (text : string) : list string :=
  tl (split newline text).

(** The body of the inner loop of [code_report_to_review]: one finding of a
    changed file. *)
Definition post_issue (self : GithubActionsMainVcs) (path : string)
    (issue : json) : M unit :=
  sha <- lift (getpath (payload_json self) ["pull_request"; "head"; "sha"]) ;;
  message <- lift (getitem issue "message") ;;
  line <- lift (getitem issue "line") ;;
  let request := JDict [("path", JStr path);
                        ("commit_id", sha);
                        ("body", message);
                        ("line", line);
                        ("side", JStr "RIGHT")] in
  out_log (Log_request request) ;;;
  url <- lift (getpath (payload_json self)
                 ["pull_request"; "review_comments_url"]) ;;
  _report self url request.

(** The two nested loops, for a given list of changed files. *)
Definition post_issues (self : GithubActionsMainVcs)
    (commit_files : list string) (report : list (string * list json))
  : M unit :=
  for_each report (fun '(path, issues) =>
    if in_list path commit_files
    then for_each issues (post_issue self path)
    else ret tt).

Definition code_report_to_review (self : GithubActionsMainVcs)
    (report : list (string * list json)) : M unit :=
  text <- lift (git_show env ["--name-only"; "--oneline";
                              checkout_id (self_settings self)]) ;;
  post_issues self (commit_files_of text) report.

Definition report_start (self : GithubActionsMainVcs) (report_text : string)
  : M unit := ret tt.

Definition default_report_text : string := "Universum check finished".

Definition report_result (self : GithubActionsMainVcs) (result : bool)
    (report_text : option string) (no_vote : bool) : M unit :=
  let report_text :=
    if negb (truthy report_text) then Some default_report_text
    else report_text in
  url <- lift (getpath (payload_json self) ["pull_request"; "comments_url"]) ;;
  _report self url (JDict [("body", json_of_optional_str report_text)]).

Definition _check_bracketed_netloc (netloc : string) : outcome unit :=
  let hostname_and_port := snd (rpartition "@" netloc) in
  let '(before_bracket, have_open_br, bracketed) :=
    partition "[" hostname_and_port in
  if have_open_br then
    if nonempty before_bracket then Raises (ValueError "Invalid IPv6 URL")
    else
      let '(hostname, _, port) := partition "]" bracketed in
      if nonempty port && negb (take 1 port =? ":")
      then Raises (ValueError "Invalid IPv6 URL")
      else check_bracketed_host env hostname
  else
    let '(hostname, _, port) := partition ":" hostname_and_port in
    check_bracketed_host env hostname.

(** [_checknetloc(netloc)]: a netloc that is not ASCII is rejected when
    its NFKC form, the characters [@:#?] left out, has one of [/?#@:]. *)
Definition _checknetloc (netloc : string) : outcome unit :=
  if negb (nonempty netloc) || isascii netloc then Returns tt
  else
    let n := remove_char "@" netloc in
    let n := remove_char ":" n in
    let n := remove_char "#" n in
    let n := remove_char "?" n in
    let netloc2 := normalize_NFKC env n in
    if n =? netloc2 then Returns tt
    else if existsb (fun c => in_str c netloc2) ["/"; "?"; "#"; "@"; ":"]%char
    then Raises (ValueError ("netloc '" ++ netloc ++ "' contains invalid "
                             ++ "characters under NFKC normalization"))
    else Returns tt.

(** [urlsplit(url)] with the default [scheme=''] and
    [allow_fragments=True]. *)
Definition urlsplit (url : string) : outcome SplitResult :=
  let url := lstrip _WHATWG_C0_CONTROL_OR_SPACE url in
  let url := fold_left (fun u b => remove_char b u)
                       _UNSAFE_URL_BYTES_TO_REMOVE url in
  let '(scheme, url) :=
    match find ":" url, url with
    | Some (S i'), String first _ =>
        if is_ascii_alpha first
           && all_chars (fun c => in_str c scheme_chars) (take (S i') url)
        then (lower (take (S i') url), drop (S i' + 1) url)
        else (EmptyString, url)
    | _, _ => (EmptyString, url)
    end in
  let after_netloc :=
    if take 2 url =? "//" then
      let '(netloc, url) := _splitnetloc url 2 in
      if (in_str "[" netloc && negb (in_str "]" netloc))
         || (in_str "]" netloc && negb (in_str "[" netloc))
      then Raises (ValueError "Invalid IPv6 URL")
      else if in_str "[" netloc && in_str "]" netloc
      then match _check_bracketed_netloc netloc with
           | Returns _ => Returns (netloc, url)
           | Raises e => Raises e
           end
      else Returns (netloc, url)
    else Returns (EmptyString, url) in
  match after_netloc with
  | Raises e => Raises e
  | Returns (netloc, url) =>
      let '(url, fragment) :=
        if in_str "#" url then split1 "#" url else (url, EmptyString) in
      let '(url, query) :=
        if in_str "?" url then split1 "?" url else (url, EmptyString) in
      match _checknetloc netloc with
      | Raises e => Raises e
      | Returns _ =>
          Returns {| scheme := scheme; netloc := netloc; path := url;
                     query := query; fragment := fragment |}
      end
  end.

(** [_clone]: the URL is split, the token goes in front of the netloc of an
    https URL that has no user name, the URL is put together again and
    passed on. *)
Definition _clone (self : GithubActionsMainVcs) (history_depth : option Z)
    (destination_directory : string) (clone_url : string)
  : outcome clone_call :=
  match urlsplit clone_url with
  | Raises e => Raises e
  | Returns parsed_repo =>
      let parsed_repo :=
        if (scheme parsed_repo =? "https") && negb (truthy (username parsed_repo))
        then
          let new_netloc :=
            token (self_settings self) ++ "@" ++ netloc parsed_repo in
          {| scheme := scheme parsed_repo;
             netloc := new_netloc;
             path := path parsed_repo;
             query := query parsed_repo;
             fragment := fragment parsed_repo |}
        else parsed_repo in
      let clone_url := urlunsplit parsed_repo in
      Returns {| call_history_depth := history_depth;
                 call_destination_directory := destination_directory;
                 call_clone_url := clone_url |}
  end.

End Module_body.

(** ** Notions the statements use *)

(** The value stored under a chain of keys, when every step is a dict that
    has the key. *)
Fixpoint field_of (doc : json) (keys : list string) : option json :=
  match keys with
  | [] => Some doc
  | k :: rest =>
      match doc with
      | JDict items =>
          match dict_get k items with
          | Some v => field_of v rest
          | None => None
          end
      | _ => None
      end
  end.

(** The exceptions a failed subscript raises. *)
Definition lookup_error (e : exn) : Prop :=
  (exists key, e = KeyError key) \/ (exists operand, e = TypeError operand).

(** [part] occurs in [whole]. *)
Definition occurs_in (part whole : string) : Prop :=
  exists before after, whole = before ++ part ++ after.

(** The findings of the report that sit in changed files, in the report's
    order, each with its path. *)
Definition selected (commit_files : list string)
    (report : list (string * list json)) : list (string * json) :=
  flat_map (fun '(path, issues) =>
              if in_list path commit_files then map (pair path) issues
              else [])
           report.

Definition github_headers (self : GithubActionsMainVcs)
  : list (string * string) :=
  [("Accept", "application/vnd.github+json");
   ("Authorization", "Bearer " ++ token (self_settings self))].

(** The review comment for one finding. *)
Definition review_comment (self : GithubActionsMainVcs) (url sha : json)
    (path : string) (message line : json) : request :=
  {| req_url := url;
     req_method := "POST";
     req_json := JDict [("path", JStr path); ("commit_id", sha);
                        ("body", message); ("line", line);
                        ("side", JStr "RIGHT")];
     req_headers := github_headers self;
     req_timeout := 300 |}.

(** The summary comment. *)
Definition summary_comment (self : GithubActionsMainVcs) (url : json)
    (text : string) : request :=
  {| req_url := url;
     req_method := "POST";
     req_json := JDict [("body", JStr text)];
     req_headers := github_headers self;
     req_timeout := 300 |}.

(** The changed-file set in the specification's words: the first line is
    dropped and the non-empty lines that remain are the paths. *)
Definition changed_files_as_specified (text : string) : list string :=
  filter nonempty (tl (split newline text)).

(** [url.path] as [urlunsplit] writes it behind a netloc. *)
Definition rooted (p : string) : string :=
  if nonempty p && negb (take 1 p =? "/") then "/" ++ p else p.

Definition with_query (q : string) : string :=
  if nonempty q then "?" ++ q else "".

Definition with_fragment (f : string) : string :=
  if nonempty f then "#" ++ f else "".

(** ** Vocabulary of the proofs *)

(** The request that answers a selected finding. *)
Definition answers (self : GithubActionsMainVcs) (files : list string)
    (url sha : json) (finding : string * json) (r : request) : Prop :=
  In (fst finding) files
  /\ exists message line,
       getitem (snd finding) "message" = Returns message
       /\ getitem (snd finding) "line" = Returns line
       /\ r = review_comment self url sha (fst finding) message line.

(** The text [report_result] puts in the summary. *)
Definition summary_text (report_text : option string) : string :=
  match report_text with
  | Some text => if nonempty text then text else default_report_text
  | None => default_report_text
  end.

(** What [urlsplit] parses after stripping and removing. *)
Definition clean (url : string) : string :=
  fold_left (fun u b => remove_char b u) _UNSAFE_URL_BYTES_TO_REMOVE
            (lstrip _WHATWG_C0_CONTROL_OR_SPACE url).

Definition split_scheme (url : string) : string * string :=
  match find ":" url, url with
  | Some (S i'), String first _ =>
      if is_ascii_alpha first
         && all_chars (fun c => in_str c scheme_chars) (take (S i') url)
      then (lower (take (S i') url), drop (S i' + 1) url)
      else (EmptyString, url)
  | _, _ => (EmptyString, url)
  end.

Definition split_authority (env : collaborators) (url : string)
  : outcome (string * string) :=
  if take 2 url =? "//" then
    let '(netloc, url) := _splitnetloc url 2 in
    if (in_str "[" netloc && negb (in_str "]" netloc))
       || (in_str "]" netloc && negb (in_str "[" netloc))
    then Raises (ValueError "Invalid IPv6 URL")
    else if in_str "[" netloc && in_str "]" netloc
    then match _check_bracketed_netloc env netloc with
         | Returns _ => Returns (netloc, url)
         | Raises e => Raises e
         end
    else Returns (netloc, url)
  else Returns (EmptyString, url).

Definition split_tail (url : string) : string * string * string :=
  let '(url, fragment) :=
    if in_str "#" url then split1 "#" url else (url, EmptyString) in
  let '(url, query) :=
    if in_str "?" url then split1 "?" url else (url, EmptyString) in
  (url, query, fragment).

(** [text] is nothing (and so is [part]), or [d] followed by [part]. *)
Definition delimited (d : ascii) (part text : string) : Prop :=
  (text = "" /\ part = "") \/ text = String d part.

Definition no_delimiter (s : string) : bool :=
  all_chars (fun c => negb (in_str c "/?#")) s.

(** Nothing, or something that starts with one of [/?#]. *)
Definition at_delimiter (s : string) : Prop :=
  s = "" \/ exists d rest, s = String d rest /\ in_str d "/?#" = true.

(** The brackets of a netloc are balanced and, where present, accepted. *)
Definition brackets_pass (env : collaborators) (n : string) : Prop :=
  (in_str "[" n = false /\ in_str "]" n = false)
  \/ (in_str "[" n = true /\ in_str "]" n = true
      /\ exists u, _check_bracketed_netloc env n = Returns u).

(** A string [urlsplit] takes for a scheme when a colon follows it. *)
Definition scheme_like (s : string) : bool :=
  match s with
  | EmptyString => false
  | String first _ =>
      is_ascii_alpha first && all_chars (fun c => in_str c scheme_chars) s
  end.

Ltac each_ascii c :=
  destruct c as [[] [] [] [] [] [] [] []].

Definition is_unsafe (c : ascii) : bool :=
  existsb (Ascii.eqb c) _UNSAFE_URL_BYTES_TO_REMOVE.

Definition no_unsafe (s : string) : bool :=
  all_chars (fun c => negb (is_unsafe c)) s.

(** Empty, or starting with a character that [lstrip] leaves alone. *)
Definition starts_printable (s : string) : bool :=
  match s with
  | EmptyString => true
  | String x _ => negb (in_str x _WHATWG_C0_CONTROL_OR_SPACE)
  end.

Definition is_rooted (p : string) : bool :=
  negb (nonempty p) || (take 1 p =? "/").

(** Nothing, or something that starts with [?] or [#]. *)
Definition at_query_or_fragment (t : string) : Prop :=
  t = "" \/ exists d rest, t = String d rest /\ in_str d "?#" = true.

(** The shape of every result of [urlsplit]. *)
Record well_parsed (env : collaborators) (r : SplitResult) : Prop := {
  wp_scheme :
    scheme r = ""
    \/ (scheme_like (scheme r) = true /\ lower (scheme r) = scheme r);
  wp_netloc : no_delimiter (netloc r) = true;
  wp_brackets : brackets_pass env (netloc r);
  wp_check : _checknetloc env (netloc r) = Returns tt;
  wp_path : in_str "?" (path r) = false /\ in_str "#" (path r) = false;
  wp_query : in_str "#" (query r) = false;
  wp_safe :
    no_unsafe (netloc r) = true /\ no_unsafe (path r) = true
    /\ no_unsafe (query r) = true /\ no_unsafe (fragment r) = true;
  wp_bare :
    scheme r = "" -> netloc r = "" ->
    fst (split_scheme (path r)) = "" /\ starts_printable (path r) = true
}.

Definition with_scheme (s : string) : string :=
  if nonempty s then s ++ ":" else "".

(** Whether [urlunsplit] writes the two slashes and the netloc. *)
Definition authority_written (r : SplitResult) : bool :=
  nonempty (netloc r)
  || (nonempty (scheme r) && in_list (scheme r) uses_netloc
      && negb (take 2 (path r) =? "//")).

Definition scheme_settled (s : string) : Prop :=
  s = "" \/ (scheme_like s = true /\ lower s = s).

(** The parts [urlsplit] finds in [urlunsplit r]. *)
Definition read_back (r : SplitResult) : SplitResult :=
  {| scheme := scheme r;
     netloc := netloc r;
     path := if authority_written r then rooted (path r) else path r;
     query := query r;
     fragment := fragment r |}.

(** A token that stays inside the user-information part of a URL: not
    empty, not starting with a colon, free of [/?#], brackets, tab, carriage
    return and newline. *)
Definition token_fits (t : string) : bool :=
  nonempty t && negb (take 1 t =? ":") && no_delimiter t
  && negb (in_str "[" t) && negb (in_str "]" t) && no_unsafe t.

(** Whether [_clone] puts the token in. *)
Definition injects (r : SplitResult) : bool :=
  (scheme r =? "https") && negb (truthy (username r)).

Definition with_token (t : string) (r : SplitResult) : SplitResult :=
  {| scheme := scheme r;
     netloc := t ++ "@" ++ netloc r;
     path := path r;
     query := query r;
     fragment := fragment r |}.

(** [sep.join(parts)] for a one-character separator. *)
Fixpoint join (sep : ascii) (parts : list string) : string :=
  match parts with
  | [] => EmptyString
  | p :: rest =>
      match rest with
      | [] => p
      | _ :: _ => p ++ String sep (join sep rest)
      end
  end.

(** [s.count(c)] for a character [c]. *)
Fixpoint count_char (c : ascii) (s : string) : nat :=
  match s with
  | EmptyString => 0
  | String a rest => (if Ascii.eqb a c then 1 else 0) + count_char c rest
  end.

(** The way every request of [_report] is made. *)
Definition github_post (self : GithubActionsMainVcs) (r : request) : Prop :=
  req_method r = "POST"
  /\ req_headers r = github_headers self
  /\ req_timeout r = 300%Z.

(** The request that answers a selected finding, with the head SHA and the
    review-comments URL the payload holds. *)
Definition answers_from_payload (self : GithubActionsMainVcs)
    (files : list string) (finding : string * json) (r : request) : Prop :=
  exists url sha,
    getpath (payload_json self) ["pull_request"; "head"; "sha"] = Returns sha
    /\ getpath (payload_json self) ["pull_request"; "review_comments_url"]
       = Returns url
    /\ answers self files url sha finding r.

(** The loop body of [code_report_to_review] on a selected finding. *)
Definition post_finding (env : collaborators) (self : GithubActionsMainVcs)
    (finding : string * json) : M unit :=
  post_issue env self (fst finding) (snd finding).

(** ** Sample data *)

Definition sample_document : json :=
  JDict
    [("repository", JDict [("html_url", JStr "https://x/y.git")]);
     ("pull_request",
      JDict
        [("head", JDict [("ref", JStr "feat"); ("sha", JStr "abc123")]);
         ("html_url", JStr "https://x/y/pull/1");
         ("review_comments_url", JStr "https://api.x/y/pulls/1/comments");
         ("comments_url", JStr "https://api.x/y/issues/1/comments")])].

(** A document that parses and has what construction reads, and nothing of
    what is read later. *)
Definition bare_document : json :=
  JDict
    [("repository", JDict [("html_url", JStr "https://x/y.git")]);
     ("pull_request", JDict [("head", JDict [("ref", JStr "feat")])])].

Definition sample_decode_detail : string :=
  "Expecting property name enclosed in double quotes: "
  ++ "line 1 column 2 (char 1)".

(** What [git show --name-only --oneline] prints for a commit that touches
    [a.py]. *)
Definition sample_show_output : string :=
  "abc123 fix" ++ String newline "a.py".

(** The same with an empty line after the first. *)
Definition blank_line_output : string :=
  "abc123 fix" ++ String newline (String newline "a.py").

(** U+2100 (ACCOUNT OF) in UTF-8; its NFKC form is [a/c]. *)
Definition account_of : string :=
  String (ascii_of_nat 226) (String (ascii_of_nat 132)
    (String (ascii_of_nat 128) "")).

(** NFKC normalisation as far as the samples go: U+2100 becomes [a/c] and
    ASCII text stays as it is. *)
Fixpoint nfkc_sample (text : string) : string :=
  match text with
  | String a ((String b (String c rest)) as tail) =>
      if String a (String b (String c "")) =? account_of
      then "a/c" ++ nfkc_sample rest
      else String a (nfkc_sample tail)
  | String a tail => String a (nfkc_sample tail)
  | "" => ""
  end.

Definition sample_env : collaborators :=
  {| json_loads := fun text =>
       if text =? "{not json" then Raises (JSONDecodeError sample_decode_detail)
       else if text =? "bare" then Returns bare_document
       else if text =? "{}" then Returns (JDict [])
       else Returns sample_document;
     git_show := fun _ => Returns sample_show_output;
     make_request := fun _ _ => Returns tt;
     check_bracketed_host := fun _ => Returns tt;
     normalize_NFKC := nfkc_sample |}.

Definition blank_line_env : collaborators :=
  {| json_loads := json_loads sample_env;
     git_show := fun _ => Returns blank_line_output;
     make_request := make_request sample_env;
     check_bracketed_host := check_bracketed_host sample_env;
     normalize_NFKC := normalize_NFKC sample_env |}.

Definition sample_settings : settings :=
  {| token := "tok";
     checkout_id := "abc123";
     repo := JStr "Will be filled after payload parsing";
     refspec := JNull |}.

Definition sample_self : GithubActionsMainVcs :=
  {| self_settings := sample_settings;
     payload := "payload";
     payload_json := sample_document |}.

Definition sample_report : list (string * list json) :=
  [("a.py", [JDict [("message", JStr "m"); ("line", JInt 3)]]);
   ("b.py", [JDict [("message", JStr "n"); ("line", JInt 1)]])].

Definition quiet_world : world := {| sent := []; logged := [] |}.

Definition bare_self : GithubActionsMainVcs :=
  {| self_settings := sample_settings;
     payload := "bare";
     payload_json := bare_document |}.

(** An object whose token has a slash in it. *)
Definition slash_token_self : GithubActionsMainVcs :=
  {| self_settings := {| token := "t/k";
                         checkout_id := "abc123";
                         repo := JStr "https://x/y.git";
                         refspec := JStr "feat" |};
     payload := "payload";
     payload_json := sample_document |}.

(** An object whose token has U+2100 in it. *)
Definition account_token_self : GithubActionsMainVcs :=
  {| self_settings := {| token := "a" ++ account_of ++ "b";
                         checkout_id := "abc123";
                         repo := JStr "https://x/y.git";
                         refspec := JStr "feat" |};
     payload := "payload";
     payload_json := sample_document |}.

Definition sample_clone_url : string := "https://github.com/o/r.git".

Definition sample_split : SplitResult :=
  {| scheme := "https"; netloc := "github.com"; path := "/o/r.git";
     query := ""; fragment := "" |}.

Definition sample_review_url : json :=
  JStr "https://api.x/y/pulls/1/comments".

Definition sample_summary_url : json :=
  JStr "https://api.x/y/issues/1/comments".

(** An HTTP helper that fails from the second request on. *)
Definition failing_env : collaborators :=
  {| json_loads := json_loads sample_env;
     git_show := git_show sample_env;
     make_request := fun history _ =>
       match history with
       | [] => Returns tt
       | _ :: _ => Raises (RequestError "502 Bad Gateway")
       end;
     check_bracketed_host := check_bracketed_host sample_env;
     normalize_NFKC := normalize_NFKC sample_env |}.

(** A commit that touches no file: the diff summary is one line. *)
Definition no_files_env : collaborators :=
  {| json_loads := json_loads sample_env;
     git_show := fun _ => Returns "abc123 merge";
     make_request := make_request sample_env;
     check_bracketed_host := check_bracketed_host sample_env;
     normalize_NFKC := normalize_NFKC sample_env |}.

(** A [json.loads] that raises something other than a decode error. *)
Definition type_error_env : collaborators :=
  {| json_loads := fun _ => Raises (TypeError JNull);
     git_show := git_show sample_env;
     make_request := make_request sample_env;
     check_bracketed_host := check_bracketed_host sample_env;
     normalize_NFKC := normalize_NFKC sample_env |}.

(** The object construction makes of the sample payload. *)
Definition constructed_self : GithubActionsMainVcs :=
  {| self_settings := {| token := "tok";
                         checkout_id := "abc123";
                         repo := JStr "https://x/y.git";
                         refspec := JStr "feat" |};
     payload := "payload";
     payload_json := sample_document |}.

Definition ssh_clone_url : string := "ssh://git@host/repo.git".

Definition ssh_split : SplitResult :=
  {| scheme := "ssh"; netloc := "git@host"; path := "/repo.git";
     query := ""; fragment := "" |}.

Definition two_findings_report : list (string * list json) :=
  [("a.py", [JDict [("message", JStr "m"); ("line", JInt 3)];
             JDict [("message", JStr "n"); ("line", JInt 7)];
             JDict [("message", JStr "o"); ("line", JInt 9)]])].

(** * Properties *)

(** ** Subscripts *)

Lemma getpath_field_of (doc : json) (keys : list string) :
  match field_of doc keys with
  | Some v => getpath doc keys = Returns v
  | None => exists e, getpath doc keys = Raises e /\ lookup_error e
  end.
Proof.
  revert doc; induction keys as [|k rest IH]; intros doc; simpl.
  - reflexivity.
  - destruct doc; simpl;
      try (eexists; split; [reflexivity | right; eexists; reflexivity]).
    destruct (dict_get k items) as [v|]; simpl.
    + apply IH.
    + eexists; split; [reflexivity | left; eexists; reflexivity].
Qed.

Lemma getpath_present (doc : json) (keys : list string) (v : json) :
  field_of doc keys = Some v -> getpath doc keys = Returns v.
Proof.
  intros H. pose proof (getpath_field_of doc keys) as G.
  rewrite H in G. exact G.
Qed.

Lemma getpath_absent (doc : json) (keys : list string) :
  field_of doc keys = None ->
  exists e, getpath doc keys = Raises e /\ lookup_error e.
Proof.
  intros H. pose proof (getpath_field_of doc keys) as G.
  rewrite H in G. exact G.
Qed.

Lemma getpath_returns_field (doc : json) (keys : list string) (v : json) :
  getpath doc keys = Returns v -> field_of doc keys = Some v.
Proof.
  intros H. pose proof (getpath_field_of doc keys) as G.
  destruct (field_of doc keys) as [u|].
  - congruence.
  - destruct G as (e & G & _). congruence.
Qed.

Lemma lookup_error_not_configuration (e : exn) (msg : string) :
  lookup_error e -> e <> ConfigurationError msg.
Proof.
  intros [[k ->] | [o ->]]; discriminate.
Qed.

(** ** Lists of lines *)

Lemma in_list_In (x : string) (xs : list string) :
  in_list x xs = true <-> In x xs.
Proof.
  unfold in_list. rewrite existsb_exists. split.
  - intros (y & Hy & E). apply String.eqb_eq in E. now subst.
  - intros H. exists x. split; [exact H | apply String.eqb_refl].
Qed.

Lemma in_list_ext (x : string) (xs ys : list string) :
  (forall p, In p xs <-> In p ys) -> in_list x xs = in_list x ys.
Proof.
  intros H. destruct (in_list x ys) eqn:E.
  - apply in_list_In. apply H. now apply in_list_In.
  - destruct (in_list x xs) eqn:E'; [|reflexivity].
    apply in_list_In in E'. apply H in E'. apply in_list_In in E'. congruence.
Qed.

Lemma nonempty_true (s : string) : nonempty s = true <-> s <> "".
Proof.
  unfold nonempty. rewrite negb_true_iff. apply String.eqb_neq.
Qed.

Lemma nonempty_false (s : string) : nonempty s = false <-> s = "".
Proof.
  unfold nonempty. rewrite negb_false_iff. apply String.eqb_eq.
Qed.

Section Reporting.

Variable env : collaborators.

(** ** The review comments *)

Lemma post_issues_ext (self : GithubActionsMainVcs)
    (files1 files2 : list string) (report : list (string * list json))
    (w : world) :
  (forall p, In p files1 <-> In p files2) ->
  post_issues env self files1 report w = post_issues env self files2 report w.
Proof.
  intros H. unfold post_issues. revert w.
  induction report as [|[path issues] rest IH]; intros w; cbn [for_each].
  - reflexivity.
  - unfold bind. rewrite (in_list_ext path files1 files2 H).
    destruct (in_list path files2).
    + destruct (for_each issues (post_issue env self path) w)
        as [[[]|e] w']; [apply IH | reflexivity].
    + unfold ret. apply IH.
Qed.

(** One finding of a changed file: one request. *)
Lemma post_issue_run (self : GithubActionsMainVcs) (sha url : json)
    (path : string) (issue message line : json) (w : world) :
  getpath (payload_json self) ["pull_request"; "head"; "sha"] = Returns sha ->
  getpath (payload_json self) ["pull_request"; "review_comments_url"]
    = Returns url ->
  getitem issue "message" = Returns message ->
  getitem issue "line" = Returns line ->
  let r := review_comment self url sha path message line in
  post_issue env self path issue w
  = (make_request env (sent w) r,
     {| sent := (sent w ++ [r])%list;
        logged := (logged w ++ [Log_request (req_json r)])%list |}).
Proof.
  intros Hsha Hurl Hm Hl r.
  unfold post_issue, bind, lift, out_log, _report, call_make_request.
  rewrite Hsha, Hm, Hl, Hurl. reflexivity.
Qed.

(** The inner loop over the findings of one changed file. *)
Lemma post_file_issues (self : GithubActionsMainVcs) (sha url : json)
    (path : string) (issues : list json) :
  getpath (payload_json self) ["pull_request"; "head"; "sha"] = Returns sha ->
  getpath (payload_json self) ["pull_request"; "review_comments_url"]
    = Returns url ->
  (forall history r, make_request env history r = Returns tt) ->
  (forall issue, In issue issues ->
     exists message line,
       getitem issue "message" = Returns message
       /\ getitem issue "line" = Returns line) ->
  forall w, exists reqs,
    for_each issues (post_issue env self path) w
    = (Returns tt,
       {| sent := (sent w ++ reqs)%list;
          logged := (logged w
                     ++ map (fun r => Log_request (req_json r)) reqs)%list |})
    /\ Forall2 (fun issue r =>
                  exists message line,
                    getitem issue "message" = Returns message
                    /\ getitem issue "line" = Returns line
                    /\ r = review_comment self url sha path message line)
               issues reqs.
Proof.
  intros Hsha Hurl Hnet.
  induction issues as [|issue rest IH]; intros Hissues w.
  - exists []. simpl. rewrite !app_nil_r. split; [|constructor].
    unfold ret. now destruct w.
  - destruct (Hissues issue (or_introl eq_refl)) as (message & line & Hm & Hl).
    set (r := review_comment self url sha path message line).
    destruct (IH (fun i Hi => Hissues i (or_intror Hi))
                 {| sent := (sent w ++ [r])%list;
                    logged := (logged w ++ [Log_request (req_json r)])%list |})
      as (reqs & Hrun & Hall).
    exists (r :: reqs). split.
    + cbn [for_each]. unfold bind.
      rewrite (post_issue_run self sha url path issue message line w
                 Hsha Hurl Hm Hl).
      rewrite Hnet. fold r. rewrite Hrun.
      cbn [sent logged map]. rewrite <- !app_assoc. reflexivity.
    + constructor; [|exact Hall]. exists message, line. auto.
Qed.

Lemma Forall2_map_left {A B C : Type} (f : A -> B) (P : B -> C -> Prop)
    (xs : list A) (ys : list C) :
  Forall2 (fun a c => P (f a) c) xs ys -> Forall2 P (map f xs) ys.
Proof.
  induction 1; simpl; constructor; auto.
Qed.

Lemma post_issues_run (self : GithubActionsMainVcs) (sha url : json)
    (files : list string) (report : list (string * list json)) :
  getpath (payload_json self) ["pull_request"; "head"; "sha"] = Returns sha ->
  getpath (payload_json self) ["pull_request"; "review_comments_url"]
    = Returns url ->
  (forall history r, make_request env history r = Returns tt) ->
  (forall finding, In finding (selected files report) ->
     exists message line,
       getitem (snd finding) "message" = Returns message
       /\ getitem (snd finding) "line" = Returns line) ->
  forall w, exists reqs,
    post_issues env self files report w
    = (Returns tt,
       {| sent := (sent w ++ reqs)%list;
          logged := (logged w
                     ++ map (fun r => Log_request (req_json r)) reqs)%list |})
    /\ Forall2 (answers self files url sha) (selected files report) reqs.
Proof.
  intros Hsha Hurl Hnet. unfold post_issues.
  induction report as [|[path issues] rest IH]; intros Hsel w.
  - exists []. simpl. rewrite !app_nil_r. split; [|constructor].
    unfold ret. now destruct w.
  - cbn [for_each selected flat_map] in *. unfold bind.
    destruct (in_list path files) eqn:Hin.
    + destruct (post_file_issues self sha url path issues Hsha Hurl Hnet)
        with (w := w) as (reqs1 & Hrun1 & Hall1).
      { intros issue Hi.
        apply (Hsel (path, issue)). apply in_or_app. left.
        now apply in_map. }
      rewrite Hrun1.
      destruct (IH (fun f Hf => Hsel f (in_or_app _ _ _ (or_intror Hf)))
                   {| sent := (sent w ++ reqs1)%list;
                      logged := (logged w
                                 ++ map (fun r => Log_request (req_json r))
                                        reqs1)%list |})
        as (reqs2 & Hrun2 & Hall2).
      exists (reqs1 ++ reqs2)%list. split.
      * rewrite Hrun2. cbn [sent logged].
        rewrite map_app, <- !app_assoc. reflexivity.
      * apply Forall2_app; [|exact Hall2].
        apply Forall2_map_left.
        eapply Forall2_impl; [|exact Hall1].
        intros issue r (message & line & Hm & Hl & Hr).
        split; [now apply in_list_In|]. exists message, line. auto.
    + unfold ret. apply IH. exact Hsel.
Qed.

(** C1: when the diff-summary query answers, the payload has the head SHA
    and the review-comments URL, every selected finding has a message and a
    line and the HTTP helper does not fail, [code_report_to_review] returns
    without an error after handing over exactly one POST per finding whose
    path is in the changed-file list, in the report's order, each to the
    review-comments endpoint with body
    [{path, commit_id: head SHA, body: message, line: line, side: "RIGHT"}];
    findings of other paths get no request. *)
Theorem code_report_to_review_posts_changed_findings
    (self : GithubActionsMainVcs) (report : list (string * list json))
    (text : string) (sha url : json) (w : world) :
  git_show env ["--name-only"; "--oneline"; checkout_id (self_settings self)]
    = Returns text ->
  getpath (payload_json self) ["pull_request"; "head"; "sha"] = Returns sha ->
  getpath (payload_json self) ["pull_request"; "review_comments_url"]
    = Returns url ->
  (forall history r, make_request env history r = Returns tt) ->
  (forall finding, In finding (selected (commit_files_of text) report) ->
     exists message line,
       getitem (snd finding) "message" = Returns message
       /\ getitem (snd finding) "line" = Returns line) ->
  exists reqs,
    code_report_to_review env self report w
    = (Returns tt,
       {| sent := (sent w ++ reqs)%list;
          logged := (logged w
                     ++ map (fun r => Log_request (req_json r)) reqs)%list |})
    /\ Forall2 (answers self (commit_files_of text) url sha)
               (selected (commit_files_of text) report) reqs.
Proof.
  intros Hgit Hsha Hurl Hnet Hsel.
  unfold code_report_to_review, bind. rewrite Hgit. unfold lift.
  apply post_issues_run; assumption.
Qed.

(** ** The summary comment *)

Lemma report_result_run (self : GithubActionsMainVcs) (result : bool)
    (report_text : option string) (no_vote : bool) (url : json) (w : world) :
  getpath (payload_json self) ["pull_request"; "comments_url"] = Returns url ->
  let r := summary_comment self url (summary_text report_text) in
  report_result env self result report_text no_vote w
  = (make_request env (sent w) r,
     {| sent := (sent w ++ [r])%list; logged := logged w |}).
Proof.
  intros Hurl r. unfold report_result, bind, lift, _report, call_make_request.
  rewrite Hurl. subst r. unfold summary_comment, summary_text, github_headers.
  destruct report_text as [text|]; cbn [truthy negb].
  - destruct (nonempty text); reflexivity.
  - reflexivity.
Qed.

(** C4 (amended): with the summary-comments URL in the payload, one
    report-result notification hands over exactly one request, a POST to
    that URL, whatever the changed files are (they are not consulted); its
    body is the supplied report text when a non-empty one was supplied and
    the fixed default message otherwise.  The call returns what the HTTP
    helper answers. *)
Theorem report_result_posts_one_summary
    (self : GithubActionsMainVcs) (result : bool)
    (report_text : option string) (no_vote : bool) (url : json) (w : world) :
  getpath (payload_json self) ["pull_request"; "comments_url"] = Returns url ->
  exists r,
    report_result env self result report_text no_vote w
    = (make_request env (sent w) r,
       {| sent := (sent w ++ [r])%list; logged := logged w |})
    /\ req_method r = "POST"
    /\ req_url r = url
    /\ req_json r
       = JDict [("body",
                 JStr match report_text with
                      | Some text =>
                          if (text =? "") then "Universum check finished"
                          else text
                      | None => "Universum check finished"
                      end)].
Proof.
  intros Hurl.
  exists (summary_comment self url (summary_text report_text)).
  split; [now apply report_result_run|].
  repeat split. cbn [req_json summary_comment]. unfold summary_text, nonempty.
  destruct report_text as [text|]; [|reflexivity].
  destruct (text =? ""); reflexivity.
Qed.

(** C8: [report_result] does the same with [no_vote=True] and with
    [no_vote=False]: the same outcome, the same requests, the same final
    state. *)
Theorem report_result_ignores_no_vote
    (self : GithubActionsMainVcs) (result : bool)
    (report_text : option string) (w : world) :
  report_result env self result report_text true w
  = report_result env self result report_text false w.
Proof.
  reflexivity.
Qed.

(** C9: an empty report text gets the default summary message: with the
    summary-comments URL in the payload, the call with [report_text=""]
    hands over exactly one request, a POST to that URL whose body is the
    fixed default message, not the empty text; without that URL it raises
    the lookup error and hands over nothing.  The call cannot be told from
    one with no report text at all. *)
Theorem report_result_empty_text_is_default
    (self : GithubActionsMainVcs) (result : bool) (no_vote : bool)
    (w : world) :
  report_result env self result (Some "") no_vote w
  = report_result env self result None no_vote w
  /\ match getpath (payload_json self) ["pull_request"; "comments_url"] with
     | Returns url =>
         exists r,
           report_result env self result (Some "") no_vote w
           = (make_request env (sent w) r,
              {| sent := (sent w ++ [r])%list; logged := logged w |})
           /\ req_method r = "POST"
           /\ req_url r = url
           /\ req_json r = JDict [("body", JStr "Universum check finished")]
           /\ req_json r <> JDict [("body", JStr "")]
     | Raises e =>
         report_result env self result (Some "") no_vote w = (Raises e, w)
     end.
Proof.
  split; [reflexivity|].
  destruct (getpath (payload_json self) ["pull_request"; "comments_url"])
    as [url|e] eqn:Hurl.
  - exists (summary_comment self url (summary_text (Some ""))).
    split; [now apply report_result_run|].
    repeat split. discriminate.
  - unfold report_result, bind, lift. now rewrite Hurl.
Qed.

(** ** The payload *)

(** C5: when [json.loads] rejects the payload with a decode error,
    construction fails with a configuration error whose message contains
    the text of the decode error; the decode error itself does not escape
    and the world is as before: no request was handed over. *)
Theorem init_reports_decode_failure
    (s : settings) (payload_text detail : string) (w : world) :
  json_loads env payload_text = Raises (JSONDecodeError detail) ->
  exists msg,
    __init__ env s payload_text w = (Raises (ConfigurationError msg), w)
    /\ occurs_in detail msg
    /\ fst (__init__ env s payload_text w) <> Raises (JSONDecodeError detail)
    /\ sent (snd (__init__ env s payload_text w)) = sent w.
Proof.
  intros H. exists (decode_failure_message detail).
  unfold __init__. rewrite H. unfold error, lift. cbn [fst snd].
  repeat split.
  - unfold occurs_in, decode_failure_message.
    exists ("Provided payload value could not been parsed as JSON "
            ++ "and returned the following error:" ++ String newline " "), "".
    generalize detail as d.
    intros d. cbn. f_equal.
    repeat (cbn; f_equal).
    induction d as [|c d IH]; cbn; [reflexivity | now f_equal].
  - discriminate.
Qed.

(** C7: [get_review_link] returns the value stored under
    [pull_request.html_url] whenever the payload has it, and raises the
    subscript's error ([KeyError], or [TypeError] where the parent is no
    dict) whenever the payload lacks it. *)
Theorem get_review_link_field (self : GithubActionsMainVcs) :
  (forall v,
      field_of (payload_json self) ["pull_request"; "html_url"] = Some v ->
      get_review_link self = Returns v)
  /\ (field_of (payload_json self) ["pull_request"; "html_url"] = None ->
      exists e, get_review_link self = Raises e /\ lookup_error e).
Proof.
  unfold get_review_link. split.
  - intros v. apply getpath_present.
  - apply getpath_absent.
Qed.

Lemma post_issues_nothing_selected (self : GithubActionsMainVcs)
    (files : list string) (report : list (string * list json)) (w : world) :
  selected files report = [] ->
  post_issues env self files report w = (Returns tt, w).
Proof.
  unfold post_issues.
  induction report as [|[path issues] rest IH]; cbn [for_each selected flat_map].
  - reflexivity.
  - intros H. apply app_eq_nil in H. destruct H as [H1 H2].
    unfold bind. destruct (in_list path files).
    + destruct issues; [|discriminate]. cbn [for_each]. unfold ret.
      now apply IH.
    + unfold ret. now apply IH.
Qed.

Lemma post_issues_first_raises (self : GithubActionsMainVcs)
    (files : list string) (report : list (string * list json))
    (finding : string * json) (others : list (string * json))
    (e : exn) (w w' : world) :
  selected files report = finding :: others ->
  post_issue env self (fst finding) (snd finding) w = (Raises e, w') ->
  post_issues env self files report w = (Raises e, w').
Proof.
  unfold post_issues. intros Hsel Hfirst.
  induction report as [|[path issues] rest IH];
    cbn [for_each selected flat_map] in *.
  - discriminate.
  - unfold bind. destruct (in_list path files).
    + destruct issues as [|issue issues]; cbn [map app for_each] in *.
      * unfold ret. now apply IH.
      * injection Hsel as <- _. cbn [fst snd] in Hfirst.
        unfold bind. now rewrite Hfirst.
    + unfold ret. now apply IH.
Qed.

(** C10: for a payload that parses, a missing [repository.html_url] or
    [pull_request.head.ref] makes construction itself raise the subscript's
    error (it is not turned into a configuration error); with both present
    construction succeeds whatever else is missing, and a missing
    [pull_request.html_url], [comments_url], [head.sha] or
    [review_comments_url] raises only where the field is read: in
    [get_review_link], in [report_result], and in [code_report_to_review]
    at the first finding of a changed file (not at all when no finding is
    selected). *)
Theorem payload_shape_checked_at_construction_and_at_use
    (s : settings) (payload_text : string) (doc : json) (w : world) :
  json_loads env payload_text = Returns doc ->
  ((field_of doc ["repository"; "html_url"] = None
    \/ field_of doc ["pull_request"; "head"; "ref"] = None) ->
   exists e,
     __init__ env s payload_text w = (Raises e, w)
     /\ lookup_error e
     /\ forall msg, e <> ConfigurationError msg)
  /\ (forall repo_url ref,
        field_of doc ["repository"; "html_url"] = Some repo_url ->
        field_of doc ["pull_request"; "head"; "ref"] = Some ref ->
        exists self,
          __init__ env s payload_text w = (Returns self, w)
          /\ payload_json self = doc
          /\ (field_of doc ["pull_request"; "html_url"] = None ->
              exists e, get_review_link self = Raises e /\ lookup_error e)
          /\ (field_of doc ["pull_request"; "comments_url"] = None ->
              forall result report_text no_vote w',
              exists e,
                report_result env self result report_text no_vote w'
                = (Raises e, w')
                /\ lookup_error e)
          /\ (forall report text w',
                git_show env ["--name-only"; "--oneline"; checkout_id s]
                  = Returns text ->
                (selected (commit_files_of text) report = [] ->
                 code_report_to_review env self report w' = (Returns tt, w'))
                /\ (selected (commit_files_of text) report <> [] ->
                    field_of doc ["pull_request"; "head"; "sha"] = None ->
                    exists e,
                      code_report_to_review env self report w'
                      = (Raises e, w')
                      /\ lookup_error e)
                /\ (forall finding others sha message line,
                      selected (commit_files_of text) report
                        = finding :: others ->
                      field_of doc ["pull_request"; "head"; "sha"]
                        = Some sha ->
                      getitem (snd finding) "message" = Returns message ->
                      getitem (snd finding) "line" = Returns line ->
                      field_of doc ["pull_request"; "review_comments_url"]
                        = None ->
                      exists e w'',
                        code_report_to_review env self report w'
                        = (Raises e, w'')
                        /\ lookup_error e
                        /\ sent w'' = sent w'))).
Proof.
  intros Hload. split.
  - intros Hmissing. unfold __init__. rewrite Hload. unfold bind, lift.
    destruct (field_of doc ["repository"; "html_url"]) as [repo_url|] eqn:Hrepo.
    + destruct Hmissing as [Hmissing|Hmissing]; [discriminate|].
      rewrite (getpath_present _ _ _ Hrepo).
      destruct (getpath_absent _ _ Hmissing) as (e & He & Hlook).
      rewrite He. exists e. repeat split; auto.
      intros msg. now apply lookup_error_not_configuration.
    + destruct (getpath_absent _ _ Hrepo) as (e & He & Hlook).
      rewrite He. exists e. repeat split; auto.
      intros msg. now apply lookup_error_not_configuration.
  - intros repo_url ref Hrepo Href.
    eexists. split.
    { unfold __init__. rewrite Hload. unfold bind, lift.
      rewrite (getpath_present _ _ _ Hrepo), (getpath_present _ _ _ Href).
      reflexivity. }
    cbn [payload_json self_settings checkout_id].
    split; [reflexivity|]. split; [|split].
    + intros H. unfold get_review_link. cbn [payload_json].
      now apply getpath_absent.
    + intros H result report_text no_vote w'.
      destruct (getpath_absent _ _ H) as (e & He & Hlook).
      exists e. split; [|exact Hlook].
      unfold report_result, bind, lift. cbn [payload_json]. now rewrite He.
    + intros report text w' Hgit.
      unfold code_report_to_review, bind, lift.
      cbn [payload_json self_settings checkout_id]. rewrite Hgit.
      split; [|split].
      * now apply post_issues_nothing_selected.
      * intros Hsel Hsha.
        destruct (selected (commit_files_of text) report)
          as [|finding others] eqn:E; [congruence|].
        destruct (getpath_absent _ _ Hsha) as (e & He & Hlook).
        exists e. split; [|exact Hlook].
        eapply post_issues_first_raises; [exact E|].
        unfold post_issue, bind, lift. cbn [payload_json]. now rewrite He.
      * intros finding others sha message line E Hsha Hm Hl Hurl.
        destruct (getpath_absent _ _ Hurl) as (e & He & Hlook).
        exists e. eexists. split; [|split; [exact Hlook|]].
        -- eapply post_issues_first_raises; [exact E|].
           unfold post_issue, bind, lift, out_log. cbn [payload_json].
           rewrite (getpath_present _ _ _ Hsha), Hm, Hl, He. reflexivity.
        -- reflexivity.
Qed.

(** C6 (amended): the changed-file list is the output of the diff-summary
    query cut at every newline, without its first line.  Every line that
    remains counts, an empty one too: a path is in the list exactly when it
    is one of the remaining non-empty lines, or it is the empty path and
    some remaining line is empty.  The loops consult the list by membership
    only, so the order of the lines and repeated lines make no
    difference. *)
Theorem changed_files_are_the_lines_after_the_first (text : string) :
  commit_files_of text = tl (split newline text)
  /\ (forall p,
        In p (commit_files_of text) <->
        In p (changed_files_as_specified text)
        \/ (p = "" /\ In "" (tl (split newline text))))
  /\ (forall self report files w,
        (forall p, In p files <-> In p (commit_files_of text)) ->
        post_issues env self files report w
        = post_issues env self (commit_files_of text) report w).
Proof.
  split; [reflexivity|]. split.
  - intros p. unfold changed_files_as_specified, commit_files_of.
    rewrite filter_In. split.
    + intros H. destruct (nonempty p) eqn:E.
      * left. now split.
      * right. apply nonempty_false in E. subst p. now split.
    + intros [[H _]|[-> H]]; exact H.
  - intros self report files w H. now apply post_issues_ext.
Qed.

End Reporting.

(** ** Strings *)

Lemma append_nil_r (s : string) : s ++ "" = s.
Proof.
  induction s as [|c s IH]; cbn; [reflexivity | now rewrite IH].
Qed.

Lemma append_assoc (a b c : string) : (a ++ b) ++ c = a ++ (b ++ c).
Proof.
  induction a as [|x a IH]; cbn; [reflexivity | now rewrite IH].
Qed.

Lemma length_append (a b : string) :
  String.length (a ++ b) = String.length a + String.length b.
Proof.
  induction a as [|x a IH]; cbn; [reflexivity | now rewrite IH].
Qed.

Lemma take_length_app (a b : string) : take (String.length a) (a ++ b) = a.
Proof.
  induction a as [|x a IH]; cbn.
  - now destruct b.
  - now rewrite IH.
Qed.

Lemma drop_length_app (a b : string) : drop (String.length a) (a ++ b) = b.
Proof.
  induction a as [|x a IH]; cbn; [reflexivity | exact IH].
Qed.

Lemma in_str_app (c : ascii) (a b : string) :
  in_str c (a ++ b) = in_str c a || in_str c b.
Proof.
  induction a as [|x a IH]; cbn; [reflexivity|].
  rewrite IH. now rewrite orb_assoc.
Qed.

Lemma all_chars_app (p : ascii -> bool) (a b : string) :
  all_chars p (a ++ b) = all_chars p a && all_chars p b.
Proof.
  induction a as [|x a IH]; cbn; [reflexivity|].
  rewrite IH. now rewrite andb_assoc.
Qed.

Lemma all_chars_impl (p q : ascii -> bool) (s : string) :
  (forall c, p c = true -> q c = true) ->
  all_chars p s = true -> all_chars q s = true.
Proof.
  intros H. induction s as [|x s IH]; cbn; [reflexivity|].
  rewrite !andb_true_iff. intros [Hx Hs]. split; auto.
Qed.

Lemma all_chars_not_in (p : ascii -> bool) (c : ascii) (s : string) :
  p c = false -> all_chars p s = true -> in_str c s = false.
Proof.
  intros Hc. induction s as [|x s IH]; cbn; [reflexivity|].
  rewrite andb_true_iff. intros [Hx Hs].
  rewrite (IH Hs), orb_false_r.
  destruct (Ascii.eqb x c) eqn:E; [|reflexivity].
  apply Ascii.eqb_eq in E. congruence.
Qed.

Lemma find_notin (c : ascii) (s : string) :
  in_str c s = false -> find c s = None.
Proof.
  induction s as [|x s IH]; cbn; [reflexivity|].
  rewrite orb_false_iff. intros [Hx Hs]. rewrite Hx, (IH Hs). reflexivity.
Qed.

Lemma find_app (c : ascii) (a b : string) :
  in_str c a = false ->
  find c (a ++ b) = option_map (Nat.add (String.length a)) (find c b).
Proof.
  induction a as [|x a IH]; cbn.
  - intros _. now destruct (find c b).
  - rewrite orb_false_iff. intros [Hx Ha]. rewrite Hx, (IH Ha).
    now destruct (find c b).
Qed.

Lemma partition_first (c : ascii) (a b : string) :
  in_str c a = false -> partition c (a ++ String c b) = (a, true, b).
Proof.
  induction a as [|x a IH]; cbn.
  - intros _. now rewrite Ascii.eqb_refl.
  - rewrite orb_false_iff. intros [Hx Ha]. now rewrite Hx, (IH Ha).
Qed.

Lemma partition_notin (c : ascii) (s : string) :
  in_str c s = false -> partition c s = (s, false, "").
Proof.
  induction s as [|x s IH]; cbn; [reflexivity|].
  rewrite orb_false_iff. intros [Hx Hs]. now rewrite Hx, (IH Hs).
Qed.

Lemma rpartition_notin (c : ascii) (s : string) :
  in_str c s = false -> rpartition c s = ("", false, s).
Proof.
  induction s as [|x s IH]; cbn; [reflexivity|].
  rewrite orb_false_iff. intros [Hx Hs]. now rewrite (IH Hs), Hx.
Qed.

Lemma rpartition_last (c : ascii) (a b : string) :
  in_str c b = false -> rpartition c (a ++ String c b) = (a, true, b).
Proof.
  intros Hb. induction a as [|x a IH]; cbn.
  - now rewrite (rpartition_notin c b Hb), Ascii.eqb_refl.
  - now rewrite IH.
Qed.

Lemma first_occurrence (c : ascii) (s : string) :
  in_str c s = true ->
  exists a b, s = a ++ String c b /\ in_str c a = false.
Proof.
  induction s as [|x s IH]; cbn; [discriminate|].
  destruct (Ascii.eqb x c) eqn:E; cbn.
  - intros _. apply Ascii.eqb_eq in E. subst x. now exists "", s.
  - intros H. destruct (IH H) as (a & b & -> & Ha).
    exists (String x a), b. cbn. now rewrite E, Ha.
Qed.

Lemma last_occurrence (c : ascii) (s : string) :
  in_str c s = true ->
  exists a b, s = a ++ String c b /\ in_str c b = false.
Proof.
  induction s as [|x s IH]; cbn; [discriminate|].
  destruct (in_str c s) eqn:Hs.
  - intros _. destruct (IH eq_refl) as (a & b & -> & Hb).
    now exists (String x a), b.
  - rewrite orb_false_r. intros E. apply Ascii.eqb_eq in E. subst x.
    now exists "", s.
Qed.

(** A string up to its first character that satisfies [p]. *)
Lemma first_satisfying (p : ascii -> bool) (s : string) :
  exists a b,
    s = a ++ b
    /\ all_chars (fun c => negb (p c)) a = true
    /\ (b = "" \/ exists d b', b = String d b' /\ p d = true).
Proof.
  induction s as [|x s IH].
  - exists "", "". auto.
  - destruct (p x) eqn:E.
    + exists "", (String x s). repeat split. right. now exists x, s.
    + destruct IH as (a & b & -> & Ha & Hb).
      exists (String x a), b. cbn. rewrite E, Ha. auto.
Qed.

Lemma remove_char_notin (b : ascii) (s : string) :
  in_str b s = false -> remove_char b s = s.
Proof.
  induction s as [|x s IH]; cbn; [reflexivity|].
  rewrite orb_false_iff. intros [Hx Hs]. now rewrite Hx, (IH Hs).
Qed.

Lemma in_str_remove_char (c b : ascii) (s : string) :
  in_str c (remove_char b s) = in_str c s && negb (Ascii.eqb b c).
Proof.
  induction s as [|x s IH]; cbn; [reflexivity|].
  destruct (Ascii.eqb x b) eqn:E.
  - apply Ascii.eqb_eq in E. subst x. rewrite IH.
    destruct (Ascii.eqb b c); cbn; [now rewrite andb_false_r | reflexivity].
  - cbn. rewrite IH. destruct (Ascii.eqb x c) eqn:E'; [|reflexivity].
    apply Ascii.eqb_eq in E'. subst x. cbn.
    now rewrite (Ascii.eqb_sym b c), E.
Qed.

Lemma lstrip_head (chars : string) (x : ascii) (s : string) :
  in_str x chars = false -> lstrip chars (String x s) = String x s.
Proof.
  intros H. cbn. now rewrite H.
Qed.

Lemma lstrip_result (chars : string) (s : string) :
  lstrip chars s = ""
  \/ exists x rest, lstrip chars s = String x rest /\ in_str x chars = false.
Proof.
  induction s as [|x s IH]; cbn; [now left|].
  destruct (in_str x chars) eqn:E; [exact IH|].
  right. now exists x, s.
Qed.

(** ** The stages of [urlsplit] *)

Lemma urlsplit_stages (env : collaborators) (url : string) :
  urlsplit env url
  = let '(scheme, rest) := split_scheme (clean url) in
    match split_authority env rest with
    | Raises e => Raises e
    | Returns (netloc, rest) =>
        let '(path, query, fragment) := split_tail rest in
        match _checknetloc env netloc with
        | Raises e => Raises e
        | Returns _ =>
            Returns {| scheme := scheme; netloc := netloc; path := path;
                       query := query; fragment := fragment |}
        end
    end.
Proof.
  unfold urlsplit. fold (clean url). fold (split_scheme (clean url)).
  destruct (split_scheme (clean url)) as [s rest].
  fold (split_authority env rest).
  destruct (split_authority env rest) as [[n rest']|e]; [|reflexivity].
  unfold split_tail.
  destruct (if in_str "#" rest' then split1 "#" rest' else (rest', ""))
    as [u f].
  destruct (if in_str "?" u then split1 "?" u else (u, "")) as [p q].
  reflexivity.
Qed.

Lemma delimited_with_query (q : string) : delimited "?" q (with_query q).
Proof.
  unfold delimited, with_query. destruct (nonempty q) eqn:E.
  - now right.
  - left. split; [reflexivity | now apply nonempty_false].
Qed.

Lemma delimited_with_fragment (f : string) :
  delimited "#" f (with_fragment f).
Proof.
  unfold delimited, with_fragment. destruct (nonempty f) eqn:E.
  - now right.
  - left. split; [reflexivity | now apply nonempty_false].
Qed.

Lemma split1_first (c : ascii) (a b : string) :
  in_str c a = false -> split1 c (a ++ String c b) = (a, b).
Proof.
  intros H. unfold split1. now rewrite (partition_first c a b H).
Qed.

Lemma split_tail_of_parts (p q f Q F : string) :
  in_str "?" p = false -> in_str "#" p = false -> in_str "#" q = false ->
  delimited "?" q Q -> delimited "#" f F ->
  split_tail (p ++ Q ++ F) = (p, q, f).
Proof.
  intros Hp1 Hp2 Hq HQ HF.
  assert (HpQ : in_str "#" (p ++ Q) = false).
  { rewrite in_str_app, Hp2. destruct HQ as [[-> _]| ->]; [reflexivity|].
    cbn. exact Hq. }
  assert (Hsecond :
            (let '(url, query) :=
               if in_str "?" (p ++ Q) then split1 "?" (p ++ Q)
               else (p ++ Q, "") in
             (url, query, f)) = (p, q, f)).
  { destruct HQ as [[-> ->]| ->].
    - rewrite append_nil_r, Hp1. reflexivity.
    - rewrite in_str_app. cbn [in_str]. rewrite Ascii.eqb_refl.
      rewrite orb_true_r. now rewrite (split1_first "?" p q Hp1). }
  unfold split_tail. rewrite <- append_assoc.
  destruct HF as [[-> ->]| ->].
  - rewrite append_nil_r, HpQ. exact Hsecond.
  - rewrite in_str_app. cbn [in_str]. rewrite Ascii.eqb_refl, orb_true_r.
    rewrite (split1_first "#" (p ++ Q) f HpQ). exact Hsecond.
Qed.

Lemma split_tail_parts (url p q f : string) :
  split_tail url = (p, q, f) ->
  exists Q F,
    url = p ++ Q ++ F
    /\ delimited "?" q Q /\ delimited "#" f F
    /\ in_str "?" p = false /\ in_str "#" p = false /\ in_str "#" q = false.
Proof.
  unfold split_tail.
  destruct (if in_str "#" url then split1 "#" url else (url, ""))
    as [u f'] eqn:E1.
  destruct (if in_str "?" u then split1 "?" u else (u, "")) as [p' q'] eqn:E2.
  intros [= -> -> ->].
  assert (Hu : exists F', url = u ++ F' /\ delimited "#" f F'
                          /\ in_str "#" u = false).
  { clear E2. destruct (in_str "#" url) eqn:E.
    - destruct (first_occurrence _ _ E) as (a & b & -> & Ha).
      rewrite (split1_first "#" a b Ha) in E1. injection E1 as <- <-.
      exists (String "#" b). repeat split; auto. now right.
    - injection E1 as <- <-. exists "". rewrite append_nil_r.
      repeat split; auto. now left. }
  destruct Hu as (F' & -> & HF & Hu).
  destruct (in_str "?" u) eqn:E.
  - destruct (first_occurrence _ _ E) as (a & b & -> & Ha).
    rewrite (split1_first "?" a b Ha) in E2. injection E2 as <- <-.
    rewrite in_str_app in Hu. apply orb_false_iff in Hu.
    destruct Hu as [Hu1 Hu2]. cbn in Hu2.
    exists (String "?" b), F'. rewrite append_assoc.
    repeat split; auto. now right.
  - injection E2 as <- <-. exists "", F'. repeat split; auto. now left.
Qed.

(** ** The netloc *)

Lemma no_delimiter_not_in (c : ascii) (s : string) :
  in_str c "/?#" = true -> no_delimiter s = true -> in_str c s = false.
Proof.
  intros Hc. apply all_chars_not_in. now rewrite Hc.
Qed.

Lemma find_from_2 (c a b : ascii) (s : string) :
  find_from c (String a (String b s)) 2 = option_map (Nat.add 2) (find c s).
Proof.
  reflexivity.
Qed.

Lemma delimiter_cases (d : ascii) :
  in_str d "/?#" = true -> d = "/"%char \/ d = "?"%char \/ d = "#"%char.
Proof.
  change (in_str d "/?#")
    with (Ascii.eqb "/" d || (Ascii.eqb "?" d || (Ascii.eqb "#" d || false))).
  rewrite !orb_true_iff, !Ascii.eqb_eq. intuition auto; discriminate.
Qed.

Lemma splitnetloc_at_2 (n rest : string) :
  no_delimiter n = true -> at_delimiter rest ->
  _splitnetloc ("//" ++ n ++ rest) 2 = (n, rest).
Proof.
  intros Hn Hrest.
  assert (Hfind : forall c, in_str c "/?#" = true ->
            find_from c ("//" ++ n ++ rest) 2
            = option_map (Nat.add 2)
                (option_map (Nat.add (String.length n)) (find c rest))).
  { intros c Hc. cbn [append]. rewrite find_from_2.
    now rewrite (find_app c n rest (no_delimiter_not_in c n Hc Hn)). }
  assert (Hdelim :
            fold_left
              (fun delim c =>
                 match find_from c ("//" ++ n ++ rest) 2 with
                 | Some wdelim => Nat.min delim wdelim
                 | None => delim
                 end)
              ["/"; "?"; "#"]%char (String.length ("//" ++ n ++ rest))
            = 2 + String.length n).
  { cbn [fold_left]. rewrite !Hfind by reflexivity.
    cbn [append String.length]. rewrite length_append.
    destruct Hrest as [->|(d & r & -> & Hd)].
    - cbn. lia.
    - apply delimiter_cases in Hd.
      destruct Hd as [->|[->| ->]]; cbn [find Ascii.eqb Bool.eqb];
        cbn [option_map String.length];
        destruct (find "/" r), (find "?" r), (find "#" r);
        cbn [option_map]; lia. }
  unfold _splitnetloc. rewrite Hdelim.
  replace (2 + String.length n - 2) with (String.length n) by lia.
  cbn [append drop Nat.add].
  now rewrite take_length_app, drop_length_app.
Qed.

Lemma split_authority_of_parts (env : collaborators) (n rest : string) :
  no_delimiter n = true -> at_delimiter rest -> brackets_pass env n ->
  split_authority env ("//" ++ n ++ rest) = Returns (n, rest).
Proof.
  intros Hn Hrest Hb. unfold split_authority.
  change (take 2 ("//" ++ n ++ rest)) with "//". cbn [String.eqb Ascii.eqb Bool.eqb].
  rewrite (splitnetloc_at_2 n rest Hn Hrest).
  destruct Hb as [[H1 H2]|(H1 & H2 & u & H3)]; rewrite H1, H2; cbn.
  - reflexivity.
  - now rewrite H3.
Qed.

Lemma split_authority_absent (env : collaborators) (url : string) :
  (take 2 url =? "//") = false ->
  split_authority env url = Returns ("", url).
Proof.
  intros H. unfold split_authority. now rewrite H.
Qed.

Lemma take_2_slashes (url : string) :
  (take 2 url =? "//") = true -> exists rest, url = "//" ++ rest.
Proof.
  intros H. apply String.eqb_eq in H.
  destruct url as [|a [|b rest]]; cbn in H; try discriminate.
  injection H as -> ->. now exists rest.
Qed.

Lemma no_delimiter_split (s : string) :
  exists n rest, s = n ++ rest /\ no_delimiter n = true /\ at_delimiter rest.
Proof.
  destruct (first_satisfying (fun c => in_str c "/?#") s)
    as (a & b & -> & Ha & Hb).
  exists a, b. repeat split; assumption.
Qed.

Lemma split_authority_parts (env : collaborators) (url n rest : string) :
  split_authority env url = Returns (n, rest) ->
  ((take 2 url =? "//") = false /\ n = "" /\ rest = url)
  \/ (url = "//" ++ n ++ rest /\ no_delimiter n = true /\ at_delimiter rest
      /\ brackets_pass env n).
Proof.
  destruct (take 2 url =? "//") eqn:E.
  - destruct (take_2_slashes url E) as (s & ->).
    destruct (no_delimiter_split s) as (n' & rest' & -> & Hn & Hrest).
    unfold split_authority.
    change (take 2 ("//" ++ n' ++ rest')) with "//".
    cbn [String.eqb Ascii.eqb Bool.eqb].
    rewrite (splitnetloc_at_2 n' rest' Hn Hrest).
    destruct (in_str "[" n') eqn:H1, (in_str "]" n') eqn:H2; cbn.
    + destruct (_check_bracketed_netloc env n') as [u|e] eqn:H3;
        [|discriminate].
      intros [= <- <-]. right. repeat split; auto.
      right. repeat split; auto. now exists u.
    + discriminate.
    + discriminate.
    + intros [= <- <-]. right. repeat split; auto. now left.
  - rewrite (split_authority_absent env url E). intros [= <- <-]. now left.
Qed.

(** ** The scheme *)

Lemma lower_char_scheme_char (c : ascii) :
  in_str c scheme_chars = true -> in_str (lower_char c) scheme_chars = true.
Proof.
  each_ascii c; vm_compute; intros H; try reflexivity; discriminate H.
Qed.

Lemma lower_char_idempotent (c : ascii) :
  lower_char (lower_char c) = lower_char c.
Proof.
  each_ascii c; reflexivity.
Qed.

Lemma lower_char_alpha (c : ascii) :
  is_ascii_alpha c = true -> is_ascii_alpha (lower_char c) = true.
Proof.
  each_ascii c; vm_compute; intros H; try reflexivity; discriminate H.
Qed.

Lemma lower_idempotent (s : string) : lower (lower s) = lower s.
Proof.
  induction s as [|c s IH]; cbn; [reflexivity|].
  now rewrite lower_char_idempotent, IH.
Qed.

Lemma lower_scheme_chars (s : string) :
  all_chars (fun c => in_str c scheme_chars) s = true ->
  all_chars (fun c => in_str c scheme_chars) (lower s) = true.
Proof.
  induction s as [|c s IH]; cbn [all_chars lower]; [reflexivity|].
  rewrite !andb_true_iff. intros [Hc Hs]. split; [|now apply IH].
  now apply lower_char_scheme_char.
Qed.

Lemma scheme_like_lower (s : string) :
  scheme_like s = true -> scheme_like (lower s) = true.
Proof.
  destruct s as [|c s]; [discriminate|].
  unfold scheme_like. rewrite !andb_true_iff. intros [Ha Hs].
  change (lower (String c s)) with (String (lower_char c) (lower s)).
  cbv beta iota. rewrite andb_true_iff.
  split; [now apply lower_char_alpha|].
  apply (lower_scheme_chars (String c s) Hs).
Qed.

Lemma scheme_like_nonempty (s : string) :
  scheme_like s = true -> nonempty s = true.
Proof.
  destruct s; [discriminate | reflexivity].
Qed.

Lemma scheme_like_chars (s : string) :
  scheme_like s = true ->
  all_chars (fun c => in_str c scheme_chars) s = true.
Proof.
  destruct s as [|c s]; [reflexivity|]. unfold scheme_like.
  rewrite andb_true_iff. now intros [_ H].
Qed.

Lemma scheme_chars_exclude (c : ascii) (s : string) :
  in_str c scheme_chars = false ->
  all_chars (fun c => in_str c scheme_chars) s = true -> in_str c s = false.
Proof.
  intros H. exact (all_chars_not_in (fun x => in_str x scheme_chars) c s H).
Qed.

Lemma find_some (c : ascii) (s : string) (i : nat) :
  find c s = Some i ->
  exists a b,
    s = a ++ String c b /\ String.length a = i /\ in_str c a = false.
Proof.
  revert i. induction s as [|x s IH]; intros i; cbn; [discriminate|].
  destruct (Ascii.eqb x c) eqn:E.
  - intros [= <-]. apply Ascii.eqb_eq in E. subst x. now exists "", s.
  - destruct (find c s) as [j|]; [|discriminate]. intros [= <-].
    destruct (IH j eq_refl) as (a & b & -> & Hlen & Ha).
    exists (String x a), b. cbn. rewrite E, Ha, Hlen. auto.
Qed.

Lemma split_scheme_of_parts (s rest : string) :
  scheme_like s = true ->
  split_scheme (s ++ ":" ++ rest) = (lower s, rest).
Proof.
  intros Hs. pose proof (scheme_like_chars s Hs) as Hchars.
  assert (Hcolon : in_str ":" s = false)
    by (now apply (scheme_chars_exclude ":" s)).
  unfold split_scheme. rewrite (find_app ":" s _ Hcolon).
  cbn [append find Ascii.eqb Bool.eqb option_map]. rewrite Nat.add_0_r.
  destruct s as [|first s']; [discriminate|].
  cbn [String.length append].
  change (String first (s' ++ String ":" rest))
    with (String first s' ++ String ":" rest).
  change (S (String.length s')) with (String.length (String first s')).
  rewrite take_length_app.
  unfold scheme_like in Hs. rewrite Hs.
  replace (String.length (String first s') + 1)
    with (String.length (String first s' ++ ":"))
    by (rewrite length_append; reflexivity).
  replace (String first s' ++ String ":" rest)
    with ((String first s' ++ ":") ++ rest)
    by (now rewrite append_assoc).
  now rewrite drop_length_app.
Qed.

Lemma split_scheme_parts (url s rest : string) :
  split_scheme url = (s, rest) ->
  (s = "" /\ rest = url)
  \/ (exists s0,
        scheme_like s0 = true /\ url = s0 ++ ":" ++ rest /\ s = lower s0).
Proof.
  unfold split_scheme.
  destruct (find ":" url) as [[|i]|] eqn:E;
    try (intros [= <- <-]; now left).
  destruct url as [|first url']; [intros [= <- <-]; now left|].
  destruct (find_some _ _ _ E) as (a & b & Heq & Hlen & Ha).
  rewrite Heq, <- Hlen, take_length_app.
  destruct (is_ascii_alpha first
            && all_chars (fun c => in_str c scheme_chars) a) eqn:C;
    [|intros [= <- <-]; now left].
  replace (String.length a + 1) with (String.length (a ++ ":"))
    by (rewrite length_append; reflexivity).
  replace (a ++ String ":" b) with ((a ++ ":") ++ b)
    by (now rewrite append_assoc).
  rewrite drop_length_app. intros [= <- <-]. right.
  exists a. repeat split; [|now rewrite append_assoc].
  destruct a as [|x a']; [discriminate|].
  injection Heq as -> _. exact C.
Qed.

Lemma split_scheme_none (url rest : string) :
  split_scheme url = ("", rest) -> rest = url.
Proof.
  intros H. destruct (split_scheme_parts _ _ _ H) as [[_ ->]|(s0 & Hs & _ & E)].
  - reflexivity.
  - apply scheme_like_lower, scheme_like_nonempty in Hs.
    rewrite <- E in Hs. discriminate.
Qed.

(** ** Stripping and removing *)

Lemma unsafe_is_stripped (c : ascii) :
  is_unsafe c = true -> in_str c _WHATWG_C0_CONTROL_OR_SPACE = true.
Proof.
  each_ascii c; vm_compute; intros H; try reflexivity; discriminate H.
Qed.

Lemma scheme_char_safe (c : ascii) :
  in_str c scheme_chars = true -> negb (is_unsafe c) = true.
Proof.
  each_ascii c; vm_compute; intros H; try reflexivity; discriminate H.
Qed.

Lemma alpha_printable (c : ascii) :
  is_ascii_alpha c = true ->
  negb (in_str c _WHATWG_C0_CONTROL_OR_SPACE) = true.
Proof.
  each_ascii c; vm_compute; intros H; try reflexivity; discriminate H.
Qed.

Lemma alpha_scheme_char (c : ascii) :
  is_ascii_alpha c = true -> in_str c scheme_chars = true.
Proof.
  each_ascii c; vm_compute; intros H; try reflexivity; discriminate H.
Qed.

Lemma no_unsafe_not_in (b : ascii) (s : string) :
  is_unsafe b = true -> no_unsafe s = true -> in_str b s = false.
Proof.
  intros Hb. apply all_chars_not_in. now rewrite Hb.
Qed.

Lemma is_unsafe_cases (c : ascii) :
  is_unsafe c = true ->
  c = ascii_of_nat 9 \/ c = ascii_of_nat 13 \/ c = ascii_of_nat 10.
Proof.
  unfold is_unsafe, _UNSAFE_URL_BYTES_TO_REMOVE. cbn [existsb].
  rewrite !orb_true_iff, !Ascii.eqb_eq. intuition auto; discriminate.
Qed.

Lemma remove_unsafe_id (s : string) :
  no_unsafe s = true ->
  fold_left (fun u b => remove_char b u) _UNSAFE_URL_BYTES_TO_REMOVE s = s.
Proof.
  intros H. cbn [fold_left _UNSAFE_URL_BYTES_TO_REMOVE].
  rewrite (remove_char_notin (ascii_of_nat 9) s)
    by (now apply no_unsafe_not_in).
  rewrite (remove_char_notin (ascii_of_nat 13) s)
    by (now apply no_unsafe_not_in).
  now rewrite (remove_char_notin (ascii_of_nat 10) s)
    by (now apply no_unsafe_not_in).
Qed.

Lemma clean_id (s : string) :
  no_unsafe s = true -> starts_printable s = true -> clean s = s.
Proof.
  intros Hsafe Hstart. unfold clean.
  assert (Hstrip : lstrip _WHATWG_C0_CONTROL_OR_SPACE s = s).
  { destruct s as [|x s']; [reflexivity|].
    apply lstrip_head. cbn in Hstart. now apply negb_true_iff in Hstart. }
  rewrite Hstrip. now apply remove_unsafe_id.
Qed.

Lemma no_unsafe_removed (s : string) :
  no_unsafe
    (fold_left (fun u b => remove_char b u) _UNSAFE_URL_BYTES_TO_REMOVE s)
  = true.
Proof.
  cbn [fold_left _UNSAFE_URL_BYTES_TO_REMOVE].
  set (t := remove_char _ (remove_char _ (remove_char _ s))).
  assert (H : forall b, is_unsafe b = true -> in_str b t = false).
  { intros b Hb. subst t. rewrite !in_str_remove_char.
    apply is_unsafe_cases in Hb. destruct Hb as [->|[->| ->]];
      cbn [Ascii.eqb Bool.eqb ascii_of_nat]; cbn;
      now rewrite ?andb_false_r. }
  clearbody t. unfold no_unsafe.
  induction t as [|x t IH]; cbn [all_chars]; [reflexivity|].
  rewrite IH.
  - rewrite andb_true_r. destruct (is_unsafe x) eqn:E; [|reflexivity].
    specialize (H x E). cbn in H. now rewrite Ascii.eqb_refl in H.
  - intros b Hb. specialize (H b Hb). cbn in H.
    now apply orb_false_iff in H.
Qed.

Lemma remove_char_head (b x : ascii) (s : string) :
  Ascii.eqb x b = false ->
  remove_char b (String x s) = String x (remove_char b s).
Proof.
  intros H. cbn. now rewrite H.
Qed.

Lemma clean_result (url : string) :
  no_unsafe (clean url) = true /\ starts_printable (clean url) = true.
Proof.
  split; [apply no_unsafe_removed|].
  unfold clean.
  destruct (lstrip_result _WHATWG_C0_CONTROL_OR_SPACE url)
    as [->|(x & rest & -> & Hx)]; [reflexivity|].
  assert (Hne : forall b, is_unsafe b = true -> Ascii.eqb x b = false).
  { intros b Hb. destruct (Ascii.eqb x b) eqn:E; [|reflexivity].
    apply Ascii.eqb_eq in E. subst b.
    apply unsafe_is_stripped in Hb. congruence. }
  cbn [fold_left _UNSAFE_URL_BYTES_TO_REMOVE].
  rewrite !remove_char_head by (apply Hne; reflexivity).
  cbn [starts_printable]. now rewrite Hx.
Qed.

(** ** Paths and what follows them *)

Lemma rooted_is_rooted (p : string) : is_rooted (rooted p) = true.
Proof.
  unfold rooted, is_rooted. destruct (nonempty p) eqn:E; cbn [andb].
  - destruct (take 1 p =? "/") eqn:E'; cbn [negb].
    + now rewrite E, E'.
    + reflexivity.
  - now rewrite E.
Qed.

Lemma rooted_id (p : string) : is_rooted p = true -> rooted p = p.
Proof.
  unfold rooted, is_rooted.
  destruct (nonempty p); cbn [negb orb andb]; [|reflexivity].
  now intros ->.
Qed.

Lemma is_rooted_cases (p : string) :
  is_rooted p = true -> p = "" \/ exists rest, p = String "/" rest.
Proof.
  unfold is_rooted, nonempty. destruct p as [|x rest]; [now left|].
  change (String x rest =? "") with false. cbn [negb orb take]. intros H.
  apply String.eqb_eq in H. injection H as ->. right. now exists rest.
Qed.

Lemma delimited_tail (q f Q F : string) :
  delimited "?" q Q -> delimited "#" f F -> at_query_or_fragment (Q ++ F).
Proof.
  intros [[-> _]| ->] [[-> _]| ->]; cbn.
  - now left.
  - right. now exists "#"%char, f.
  - right. now exists "?"%char, (q ++ "").
  - right. now exists "?"%char, (q ++ String "#" f).
Qed.

Lemma written_tail (q f : string) :
  at_query_or_fragment (with_query q ++ with_fragment f).
Proof.
  apply (delimited_tail q f).
  - apply delimited_with_query.
  - apply delimited_with_fragment.
Qed.

Lemma query_or_fragment_delimiter (t : string) :
  at_query_or_fragment t -> at_delimiter t.
Proof.
  intros [->|(d & rest & -> & Hd)]; [now left|].
  right. exists d, rest. split; [reflexivity|]. revert Hd.
  each_ascii d; vm_compute; intros Hd; try reflexivity; discriminate Hd.
Qed.

Lemma rooted_then_tail (p t : string) :
  is_rooted p = true -> at_query_or_fragment t -> at_delimiter (p ++ t).
Proof.
  intros Hp Ht. destruct (is_rooted_cases p Hp) as [->|(rest & ->)].
  - now apply query_or_fragment_delimiter.
  - right. now exists "/"%char, (rest ++ t).
Qed.

(** A path behind an authority is rooted. *)
Lemma path_at_delimiter_rooted (p t : string) :
  in_str "?" p = false -> in_str "#" p = false ->
  at_delimiter (p ++ t) -> is_rooted p = true.
Proof.
  intros H1 H2 H. destruct p as [|x rest]; [reflexivity|].
  destruct H as [H|(d & r & H & Hd)]; [discriminate|].
  cbn in H. injection H as <- _.
  cbn in H1, H2. apply orb_false_iff in H1, H2.
  apply delimiter_cases in Hd. destruct Hd as [->|[->| ->]].
  - reflexivity.
  - now destruct H1.
  - now destruct H2.
Qed.

Lemma take_2_path_tail (p t : string) :
  (take 2 p =? "//") = false -> at_query_or_fragment t ->
  (take 2 (p ++ t) =? "//") = false.
Proof.
  intros Hp Ht.
  destruct p as [|x [|y rest]]; cbn [append].
  - destruct Ht as [->|(d & r & -> & Hd)]; [reflexivity|].
    cbn [take]. apply String.eqb_neq. intros E.
    destruct r; cbn in E; [discriminate|]. injection E as -> _.
    discriminate Hd.
  - destruct Ht as [->|(d & r & -> & Hd)]; [exact Hp|].
    cbn [take]. apply String.eqb_neq. intros E. injection E as -> ->.
    discriminate Hd.
  - exact Hp.
Qed.

Lemma starts_printable_tail (p t t' : string) :
  starts_printable (p ++ t) = true -> at_query_or_fragment t' ->
  starts_printable (p ++ t') = true.
Proof.
  intros H Ht. destruct p as [|x rest]; [|exact H].
  destruct Ht as [->|(d & r & -> & Hd)]; [reflexivity|].
  cbn [append starts_printable]. revert Hd.
  each_ascii d; vm_compute; intros Hd; try reflexivity; discriminate Hd.
Qed.

(** ** Scheme detection looks at the path only *)

Lemma prefix_within (a b p t : string) :
  a ++ b = p ++ t ->
  (forall c, in_str c "?#" = true -> in_str c a = false) ->
  at_query_or_fragment t ->
  exists p', p = a ++ p'.
Proof.
  revert p. induction a as [|x a IH]; intros p Heq Ha Ht.
  - now exists p.
  - destruct p as [|y p].
    + exfalso. destruct Ht as [->|(d & r & -> & Hd)]; [discriminate|].
      cbn in Heq. injection Heq as -> _.
      specialize (Ha d Hd). cbn in Ha. now rewrite Ascii.eqb_refl in Ha.
    + cbn in Heq. injection Heq as -> Heq.
      destruct (IH p Heq) as (p' & ->); [|exact Ht|now exists p'].
      intros c Hc. specialize (Ha c Hc). cbn in Ha.
      now apply orb_false_iff in Ha.
Qed.

Lemma scheme_prefix_chars (s0 : string) (c : ascii) :
  scheme_like s0 = true -> in_str c "?#" = true ->
  in_str c (s0 ++ ":") = false.
Proof.
  intros Hs Hc. rewrite in_str_app.
  assert (H1 : in_str c scheme_chars = false).
  { revert Hc.
    each_ascii c; vm_compute; intros Hc; try reflexivity; discriminate Hc. }
  assert (H2 : in_str c ":" = false).
  { revert Hc.
    each_ascii c; vm_compute; intros Hc; try reflexivity; discriminate Hc. }
  rewrite (scheme_chars_exclude c s0 H1 (scheme_like_chars s0 Hs)).
  exact H2.
Qed.

Lemma split_scheme_tail (p t : string) :
  at_query_or_fragment t ->
  fst (split_scheme (p ++ t)) = fst (split_scheme p).
Proof.
  intros Ht. destruct (split_scheme p) as [s rest] eqn:E.
  destruct (split_scheme_parts _ _ _ E) as [[-> ->]|(s0 & Hs & -> & ->)].
  - destruct (split_scheme (p ++ t)) as [s' rest'] eqn:E'.
    destruct (split_scheme_parts _ _ _ E') as [[-> _]|(s0 & Hs & Heq & ->)];
      [reflexivity|]. exfalso.
    replace (s0 ++ ":" ++ rest') with ((s0 ++ ":") ++ rest') in Heq
      by (now rewrite append_assoc).
    destruct (prefix_within (s0 ++ ":") rest' p t (eq_sym Heq)) as (p' & ->).
    + intros c Hc. now apply scheme_prefix_chars.
    + exact Ht.
    + rewrite append_assoc in E.
      rewrite (split_scheme_of_parts s0 p' Hs) in E. injection E as E _.
      apply scheme_like_lower, scheme_like_nonempty in Hs.
      rewrite E in Hs. discriminate.
  - replace ((s0 ++ ":" ++ rest) ++ t) with (s0 ++ ":" ++ (rest ++ t)).
    + now rewrite (split_scheme_of_parts s0 (rest ++ t) Hs).
    + rewrite !append_assoc. reflexivity.
Qed.

Lemma split_scheme_free (url : string) :
  fst (split_scheme url) = "" -> split_scheme url = ("", url).
Proof.
  destruct (split_scheme url) as [s rest] eqn:E. cbn. intros ->.
  now rewrite (split_scheme_none url rest E).
Qed.

Lemma split_scheme_not_alpha (x : ascii) (rest : string) :
  is_ascii_alpha x = false ->
  split_scheme (String x rest) = ("", String x rest).
Proof.
  intros H. unfold split_scheme.
  destruct (find ":" (String x rest)) as [[|i]|]; try reflexivity.
  now rewrite H.
Qed.

(** ** What [urlsplit] returns *)

Lemma no_unsafe_app (a b : string) :
  no_unsafe (a ++ b) = no_unsafe a && no_unsafe b.
Proof.
  apply all_chars_app.
Qed.

Lemma no_unsafe_delimited (d : ascii) (part text : string) :
  delimited d part text -> no_unsafe text = true -> no_unsafe part = true.
Proof.
  intros [[_ ->]| ->]; [reflexivity|].
  cbn. rewrite andb_true_iff. now intros [_ H].
Qed.

Lemma urlsplit_well_parsed (env : collaborators) (url : string)
    (r : SplitResult) :
  urlsplit env url = Returns r -> well_parsed env r.
Proof.
  rewrite urlsplit_stages.
  destruct (split_scheme (clean url)) as [s X] eqn:E1.
  destruct (split_authority env X) as [[n Y]|e] eqn:E2; [|discriminate].
  destruct (split_tail Y) as [[p q] f] eqn:E3.
  destruct (_checknetloc env n) as [[]|e] eqn:E4; [|discriminate].
  intros [= <-].
  destruct (clean_result url) as [Hsafe Hstart].
  destruct (split_tail_parts _ _ _ _ E3)
    as (Q & F & -> & HQ & HF & Hp1 & Hp2 & Hq).
  pose proof (delimited_tail _ _ _ _ HQ HF) as Htail.
  assert (HX : no_unsafe X = true).
  { destruct (split_scheme_parts _ _ _ E1) as [[_ ->]|(s0 & _ & Heq & _)];
      [exact Hsafe|].
    rewrite Heq, !no_unsafe_app, !andb_true_iff in Hsafe. tauto. }
  assert (HY : no_unsafe n = true /\ no_unsafe (p ++ Q ++ F) = true).
  { destruct (split_authority_parts _ _ _ _ E2)
      as [(_ & -> & <-)|(Heq & _)]; [now split|].
    rewrite Heq, no_unsafe_app, (no_unsafe_app n), !andb_true_iff in HX.
    tauto. }
  destruct HY as [Hn HY].
  rewrite !no_unsafe_app, !andb_true_iff in HY.
  destruct HY as (HsafeP & HsafeQ & HsafeF).
  constructor; cbn [scheme netloc path query fragment].
  - destruct (split_scheme_parts _ _ _ E1) as [[-> _]|(s0 & Hs & _ & ->)];
      [now left|]. right. split.
    + now apply scheme_like_lower.
    + apply lower_idempotent.
  - destruct (split_authority_parts _ _ _ _ E2)
      as [(_ & -> & _)|(_ & H & _)]; [reflexivity | exact H].
  - destruct (split_authority_parts _ _ _ _ E2)
      as [(_ & -> & _)|(_ & _ & _ & H)]; [now left | exact H].
  - exact E4.
  - now split.
  - exact Hq.
  - repeat split; auto.
    + now apply (no_unsafe_delimited "?" q Q).
    + now apply (no_unsafe_delimited "#" f F).
  - intros Hs Hnet. subst s n.
    apply split_scheme_none in E1 as HXeq. subst X.
    destruct (split_authority_parts _ _ _ _ E2)
      as [(_ & _ & HYX)|(_ & _ & H & _)].
    + split.
      * rewrite <- (split_scheme_tail p (Q ++ F) Htail).
        now rewrite HYX, E1.
      * rewrite <- HYX in Hstart.
        pose proof (starts_printable_tail p (Q ++ F) "" Hstart
                      (or_introl eq_refl)) as H.
        now rewrite append_nil_r in H.
    + pose proof (path_at_delimiter_rooted p (Q ++ F) Hp1 Hp2 H) as Hr.
      destruct (is_rooted_cases p Hr) as [->|(rest & ->)].
      * now split.
      * split; [|reflexivity].
        now rewrite split_scheme_not_alpha.
Qed.

(** Behind a netloc the path is empty or starts with a slash. *)
Lemma urlsplit_path_rooted (env : collaborators) (url : string)
    (r : SplitResult) :
  urlsplit env url = Returns r ->
  nonempty (netloc r) = true -> is_rooted (path r) = true.
Proof.
  rewrite urlsplit_stages.
  destruct (split_scheme (clean url)) as [s X] eqn:E1.
  destruct (split_authority env X) as [[n Y]|e] eqn:E2; [|discriminate].
  destruct (split_tail Y) as [[p q] f] eqn:E3.
  destruct (_checknetloc env n) as [[]|e]; [|discriminate].
  intros [= <-].
  cbn [netloc path]. intros Hne.
  destruct (split_tail_parts _ _ _ _ E3)
    as (Q & F & -> & HQ & HF & Hp1 & Hp2 & Hq).
  destruct (split_authority_parts _ _ _ _ E2)
    as [(_ & -> & _)|(_ & _ & H & _)]; [discriminate|].
  now apply (path_at_delimiter_rooted p (Q ++ F)).
Qed.

(** ** What [urlunsplit] writes *)

Lemma urlunsplit_form (r : SplitResult) :
  urlunsplit r
  = with_scheme (scheme r)
    ++ (if authority_written r
        then "//" ++ netloc r ++ rooted (path r)
        else path r)
    ++ with_query (query r) ++ with_fragment (fragment r).
Proof.
  unfold urlunsplit, authority_written, with_scheme, with_query,
    with_fragment, rooted.
  destruct r as [s n p q f]. cbn [scheme netloc path query fragment].
  set (b := nonempty n
            || (nonempty s && in_list s uses_netloc
                && negb (take 2 p =? "//"))).
  set (body := if b
               then "//" ++ n ++ (if nonempty p && negb (take 1 p =? "/")
                                  then "/" ++ p else p)
               else p).
  destruct (nonempty s), (nonempty q), (nonempty f);
    rewrite ?append_assoc, ?append_nil_r; reflexivity.
Qed.

Lemma no_unsafe_scheme (s : string) :
  scheme_settled s -> no_unsafe (with_scheme s) = true.
Proof.
  intros [->|[Hs _]]; [reflexivity|]. unfold with_scheme.
  rewrite (scheme_like_nonempty s Hs), no_unsafe_app.
  apply andb_true_iff. split; [|reflexivity].
  apply (all_chars_impl (fun c => in_str c scheme_chars)).
  - apply scheme_char_safe.
  - now apply scheme_like_chars.
Qed.

Lemma clean_written (s body : string) :
  scheme_settled s -> no_unsafe body = true ->
  (s = "" -> starts_printable body = true) ->
  clean (with_scheme s ++ body) = with_scheme s ++ body.
Proof.
  intros Hs Hbody Hstart. apply clean_id.
  - rewrite no_unsafe_app, (no_unsafe_scheme s Hs). exact Hbody.
  - destruct Hs as [->|[Hs _]]; [now apply Hstart|].
    unfold with_scheme. rewrite (scheme_like_nonempty s Hs).
    destruct s as [|x s']; [discriminate|].
    cbn [append starts_printable]. apply alpha_printable.
    unfold scheme_like in Hs. now apply andb_true_iff in Hs.
Qed.

Lemma split_scheme_written (s body : string) :
  scheme_settled s ->
  (s = "" -> fst (split_scheme body) = "") ->
  split_scheme (with_scheme s ++ body) = (s, body).
Proof.
  intros [->|[Hs Hlow]] Hfree.
  - now apply split_scheme_free, Hfree.
  - unfold with_scheme. rewrite (scheme_like_nonempty s Hs), append_assoc.
    now rewrite (split_scheme_of_parts s body Hs), Hlow.
Qed.

Lemma no_unsafe_with_query (q : string) :
  no_unsafe q = true -> no_unsafe (with_query q) = true.
Proof.
  intros H. unfold with_query. now destruct (nonempty q).
Qed.

Lemma no_unsafe_with_fragment (f : string) :
  no_unsafe f = true -> no_unsafe (with_fragment f) = true.
Proof.
  intros H. unfold with_fragment. now destruct (nonempty f).
Qed.

(** A written URL with an authority reads back as its parts. *)
Lemma urlsplit_written_with_authority (env : collaborators)
    (s n p q f : string) :
  scheme_settled s ->
  no_delimiter n = true -> brackets_pass env n ->
  _checknetloc env n = Returns tt ->
  in_str "?" p = false -> in_str "#" p = false -> is_rooted p = true ->
  in_str "#" q = false ->
  no_unsafe n = true -> no_unsafe p = true ->
  no_unsafe q = true -> no_unsafe f = true ->
  urlsplit env (with_scheme s ++ ("//" ++ n ++ p)
                ++ with_query q ++ with_fragment f)
  = Returns {| scheme := s; netloc := n; path := p;
               query := q; fragment := f |}.
Proof.
  intros Hs Hn Hb Hcheck Hp1 Hp2 Hroot Hq Sn Sp Sq Sf.
  set (tail := with_query q ++ with_fragment f).
  assert (Htail : at_query_or_fragment tail) by apply written_tail.
  assert (Stail : no_unsafe tail = true).
  { unfold tail. rewrite no_unsafe_app, (no_unsafe_with_query q Sq).
    now apply no_unsafe_with_fragment. }
  assert (Hbody : ("//" ++ n ++ p) ++ tail = "//" ++ n ++ (p ++ tail)).
  { now rewrite !append_assoc. }
  rewrite urlsplit_stages, Hbody.
  rewrite clean_written; [|exact Hs| |reflexivity].
  - rewrite split_scheme_written; [|exact Hs|].
    + rewrite (split_authority_of_parts env n (p ++ tail) Hn
                 (rooted_then_tail p tail Hroot Htail) Hb).
      unfold tail.
      now rewrite (split_tail_of_parts p q f _ _ Hp1 Hp2 Hq
                     (delimited_with_query q) (delimited_with_fragment f)),
        Hcheck.
    + intros _. cbn [append]. now rewrite split_scheme_not_alpha.
  - change ("//" ++ n ++ p ++ tail) with ("//" ++ (n ++ p ++ tail)).
    rewrite no_unsafe_app, !no_unsafe_app, Sn, Sp, Stail. reflexivity.
Qed.

(** A written URL without an authority reads back as its parts. *)
Lemma urlsplit_written_without_authority (env : collaborators)
    (s p q f : string) :
  scheme_settled s ->
  in_str "?" p = false -> in_str "#" p = false ->
  (take 2 p =? "//") = false ->
  in_str "#" q = false ->
  no_unsafe p = true -> no_unsafe q = true -> no_unsafe f = true ->
  (s = "" -> fst (split_scheme p) = "" /\ starts_printable p = true) ->
  urlsplit env (with_scheme s ++ p ++ with_query q ++ with_fragment f)
  = Returns {| scheme := s; netloc := ""; path := p;
               query := q; fragment := f |}.
Proof.
  intros Hs Hp1 Hp2 Hslashes Hq Sp Sq Sf Hbare.
  set (tail := with_query q ++ with_fragment f).
  assert (Htail : at_query_or_fragment tail) by apply written_tail.
  assert (Stail : no_unsafe tail = true).
  { unfold tail. rewrite no_unsafe_app, (no_unsafe_with_query q Sq).
    now apply no_unsafe_with_fragment. }
  rewrite urlsplit_stages.
  rewrite clean_written; [|exact Hs| |].
  - rewrite split_scheme_written; [|exact Hs|].
    + rewrite (split_authority_absent env (p ++ tail)
                 (take_2_path_tail p tail Hslashes Htail)).
      unfold tail.
      now rewrite (split_tail_of_parts p q f _ _ Hp1 Hp2 Hq
                     (delimited_with_query q) (delimited_with_fragment f)).
    + intros E. rewrite (split_scheme_tail p tail Htail).
      now apply Hbare.
  - now rewrite no_unsafe_app, Sp, Stail.
  - intros E. destruct (Hbare E) as [_ Hstart].
    apply (starts_printable_tail p "" tail); [|exact Htail].
    now rewrite append_nil_r.
Qed.

(** ** Reading back what was written *)

Lemma rooted_cases (p : string) : rooted p = p \/ rooted p = "/" ++ p.
Proof.
  unfold rooted. destruct (nonempty p && negb (take 1 p =? "/")); auto.
Qed.

Lemma rooted_idempotent (p : string) : rooted (rooted p) = rooted p.
Proof.
  apply rooted_id, rooted_is_rooted.
Qed.

Lemma in_str_rooted (c : ascii) (p : string) :
  Ascii.eqb "/" c = false -> in_str c p = false ->
  in_str c (rooted p) = false.
Proof.
  intros Hc Hp. destruct (rooted_cases p) as [-> | ->]; [exact Hp|].
  cbn [append in_str]. now rewrite Hc, Hp.
Qed.

Lemma no_unsafe_rooted (p : string) :
  no_unsafe p = true -> no_unsafe (rooted p) = true.
Proof.
  intros Hp. destruct (rooted_cases p) as [-> | ->]; [exact Hp|].
  cbn. exact Hp.
Qed.

Lemma take_2_rooted (p : string) :
  (take 2 p =? "//") = false -> (take 2 (rooted p) =? "//") = false.
Proof.
  intros H. unfold rooted.
  destruct (nonempty p && negb (take 1 p =? "/")) eqn:E; [|exact H].
  apply andb_true_iff in E. destruct E as [_ E].
  apply negb_true_iff in E.
  destruct p as [|x rest]; [reflexivity|].
  cbn [take append] in *. apply String.eqb_neq. intros [= ->].
  now rewrite String.eqb_refl in E.
Qed.

Lemma authority_written_read_back (r : SplitResult) :
  authority_written (read_back r) = authority_written r.
Proof.
  unfold authority_written at 1. cbn [read_back scheme netloc path].
  destruct (authority_written r) eqn:E; [|exact E].
  unfold authority_written in E.
  destruct (nonempty (netloc r)); [reflexivity|]. cbn [orb] in *.
  destruct (nonempty (scheme r) && in_list (scheme r) uses_netloc);
    [|discriminate]. cbn [andb] in *.
  apply negb_true_iff in E. now rewrite (take_2_rooted _ E).
Qed.

Lemma urlunsplit_read_back (r : SplitResult) :
  urlunsplit (read_back r) = urlunsplit r.
Proof.
  rewrite !urlunsplit_form, authority_written_read_back.
  cbn [read_back scheme netloc path query fragment].
  destruct (authority_written r); [|reflexivity].
  now rewrite rooted_idempotent.
Qed.

Lemma urlsplit_urlunsplit (env : collaborators) (r : SplitResult) :
  well_parsed env r ->
  nonempty (netloc r) || negb (take 2 (path r) =? "//") = true ->
  urlsplit env (urlunsplit r) = Returns (read_back r).
Proof.
  intros [Hs Hn Hb Hcheck [Hp1 Hp2] Hq (Sn & Sp & Sq & Sf) Hbare] Hre.
  rewrite urlunsplit_form. unfold read_back.
  destruct (authority_written r) eqn:E.
  - apply urlsplit_written_with_authority; auto.
    + now apply in_str_rooted.
    + now apply in_str_rooted.
    + apply rooted_is_rooted.
    + now apply no_unsafe_rooted.
  - unfold authority_written in E. apply orb_false_iff in E.
    destruct E as [E _]. rewrite E in Hre. cbn [orb] in Hre.
    apply negb_true_iff in Hre. apply nonempty_false in E.
    rewrite E.
    apply urlsplit_written_without_authority; auto.
Qed.

(** ** The token in front of the netloc *)

Lemma rpartition_prefixed (c : ascii) (a b : string) :
  exists w,
    rpartition c (a ++ String c b) = (a ++ w, true, snd (rpartition c b)).
Proof.
  destruct (in_str c b) eqn:E.
  - destruct (last_occurrence c b E) as (b1 & b2 & -> & Hb2).
    exists (String c b1).
    replace (a ++ String c (b1 ++ String c b2))
      with ((a ++ String c b1) ++ String c b2)
      by (now rewrite append_assoc).
    now rewrite !rpartition_last.
  - exists "". now rewrite rpartition_last, rpartition_notin, append_nil_r.
Qed.

Lemma check_bracketed_netloc_token (env : collaborators) (t n : string) :
  _check_bracketed_netloc env (t ++ "@" ++ n)
  = _check_bracketed_netloc env n.
Proof.
  unfold _check_bracketed_netloc.
  change (t ++ "@" ++ n) with (t ++ String "@" n).
  destruct (rpartition_prefixed "@" t n) as (w & ->). reflexivity.
Qed.

Lemma brackets_pass_token (env : collaborators) (t n : string) :
  in_str "[" t = false -> in_str "]" t = false ->
  brackets_pass env n -> brackets_pass env (t ++ "@" ++ n).
Proof.
  intros H1 H2 Hb. unfold brackets_pass.
  rewrite check_bracketed_netloc_token, !in_str_app, H1, H2.
  exact Hb.
Qed.

Lemma username_with_token (t : string) (r : SplitResult) :
  nonempty t = true -> (take 1 t =? ":") = false ->
  truthy (username (with_token t r)) = true.
Proof.
  intros Hne Hcolon. unfold username, _userinfo.
  cbn [with_token netloc].
  change (t ++ "@" ++ netloc r) with (t ++ String "@" (netloc r)).
  destruct (rpartition_prefixed "@" t (netloc r)) as (w & ->).
  destruct t as [|x t']; [discriminate|].
  cbn [append partition].
  assert (Hx : Ascii.eqb x ":" = false).
  { destruct (Ascii.eqb x ":") eqn:E; [|reflexivity].
    apply Ascii.eqb_eq in E. subst x. discriminate. }
  rewrite Hx.
  destruct (partition ":" (t' ++ w)) as [[before found] after].
  reflexivity.
Qed.

Lemma username_needs_netloc (r : SplitResult) :
  truthy (username r) = true -> nonempty (netloc r) = true.
Proof.
  unfold username, _userinfo.
  destruct (netloc r); [discriminate | reflexivity].
Qed.

Lemma username_read_back (r : SplitResult) :
  username (read_back r) = username r.
Proof.
  reflexivity.
Qed.

Lemma token_fits_parts (t : string) :
  token_fits t = true ->
  nonempty t = true /\ (take 1 t =? ":") = false /\ no_delimiter t = true
  /\ in_str "[" t = false /\ in_str "]" t = false /\ no_unsafe t = true.
Proof.
  unfold token_fits. rewrite !andb_true_iff, !negb_true_iff. tauto.
Qed.

(** [_checknetloc] looks at non-ASCII netlocs only. *)
Lemma checknetloc_ascii (env : collaborators) (n : string) :
  isascii n = true -> _checknetloc env n = Returns tt.
Proof.
  intros H. unfold _checknetloc. rewrite H. now rewrite orb_true_r.
Qed.

Lemma isascii_app (a b : string) :
  isascii (a ++ b) = isascii a && isascii b.
Proof.
  apply all_chars_app.
Qed.

Lemma checknetloc_ascii_token (env : collaborators) (t n : string) :
  isascii t = true -> isascii n = true ->
  _checknetloc env (t ++ "@" ++ n) = Returns tt.
Proof.
  intros Ht Hn. apply checknetloc_ascii.
  rewrite !isascii_app, Ht, Hn. reflexivity.
Qed.

Lemma well_parsed_with_token (env : collaborators) (t : string)
    (r : SplitResult) :
  token_fits t = true -> scheme r = "https" ->
  _checknetloc env (t ++ "@" ++ netloc r) = Returns tt ->
  well_parsed env r -> well_parsed env (with_token t r).
Proof.
  intros Ht Hhttps Htoken [Hs Hn Hb Hcheck Hp Hq (Sn & Sp & Sq & Sf) Hbare].
  destruct (token_fits_parts t Ht) as (T1 & T2 & T3 & T4 & T5 & T6).
  constructor; cbn [with_token scheme netloc path query fragment]; auto.
  - unfold no_delimiter in *. rewrite !all_chars_app, T3, Hn. reflexivity.
  - now apply brackets_pass_token.
  - repeat split; auto. rewrite !no_unsafe_app, T6, Sn. reflexivity.
  - rewrite Hhttps. discriminate.
Qed.

Section Cloning.

Variable env : collaborators.

Lemma clone_run (self : GithubActionsMainVcs) (history_depth : option Z)
    (destination_directory clone_url : string) (r : SplitResult) :
  urlsplit env clone_url = Returns r ->
  _clone env self history_depth destination_directory clone_url
  = Returns {| call_history_depth := history_depth;
               call_destination_directory := destination_directory;
               call_clone_url :=
                 urlunsplit (if injects r
                             then with_token (token (self_settings self)) r
                             else r) |}.
Proof.
  intros H. unfold _clone. rewrite H. unfold injects, with_token.
  now destruct ((scheme r =? "https") && negb (truthy (username r))).
Qed.

Lemma nonempty_with_token (t n : string) : nonempty (t ++ "@" ++ n) = true.
Proof.
  now destruct t.
Qed.

Lemma authority_written_with_token (t : string) (r : SplitResult) :
  authority_written (with_token t r) = true.
Proof.
  unfold authority_written. cbn [with_token netloc].
  now rewrite nonempty_with_token.
Qed.

Lemma urlunsplit_with_token (t : string) (r : SplitResult) :
  scheme r = "https" ->
  urlunsplit (with_token t r)
  = "https://" ++ t ++ "@" ++ netloc r ++ rooted (path r)
    ++ with_query (query r) ++ with_fragment (fragment r).
Proof.
  intros Hs. rewrite urlunsplit_form, authority_written_with_token.
  cbn [with_token scheme netloc path query fragment]. rewrite Hs.
  change (with_scheme "https") with "https:".
  rewrite !append_assoc. reflexivity.
Qed.

Lemma read_back_with_token (t : string) (r : SplitResult) :
  read_back (with_token t r)
  = {| scheme := scheme r;
       netloc := t ++ "@" ++ netloc r;
       path := rooted (path r);
       query := query r;
       fragment := fragment r |}.
Proof.
  unfold read_back. now rewrite authority_written_with_token.
Qed.

Lemma urlsplit_with_token (t clone_url : string) (r : SplitResult) :
  token_fits t = true ->
  _checknetloc env (t ++ "@" ++ netloc r) = Returns tt ->
  urlsplit env clone_url = Returns r -> scheme r = "https" ->
  urlsplit env (urlunsplit (with_token t r))
  = Returns (read_back (with_token t r)).
Proof.
  intros Ht Hc Hr Hs. apply urlsplit_urlunsplit.
  - apply well_parsed_with_token; auto.
    now apply (urlsplit_well_parsed env clone_url).
  - cbn [with_token netloc]. now rewrite nonempty_with_token.
Qed.

Lemma read_back_same (clone_url : string) (r : SplitResult) :
  urlsplit env clone_url = Returns r ->
  nonempty (netloc r) = true -> read_back r = r.
Proof.
  intros Hr Hn. unfold read_back, authority_written. rewrite Hn.
  cbn [orb].
  rewrite (rooted_id _ (urlsplit_path_rooted env clone_url r Hr Hn)).
  now destruct r.
Qed.

(** C2 (amended): let [clone_url] split into the five components [r].  If
    the scheme is https and there is no (non-empty) user name, [_clone]
    passes on the URL written from the same components with the netloc
    replaced by [token@netloc], that is
    [https://token@netloc] followed by the path (with a leading slash put
    in front when the path is non-empty and lacks one), [?query] and
    [#fragment] where these are non-empty.  That URL splits into exactly
    these components when the token is not empty, does not start with a
    colon, has none of [/?#], brackets, tab, carriage return or newline,
    and [token@netloc] passes the check [urlsplit] makes of a netloc under
    NFKC normalisation; the check passes whenever token and netloc are
    ASCII.  Otherwise
    (scheme not https, or a user name present) no token goes in: the
    components are written back as they were parsed, so the URL passed on
    is [urlunsplit] of the URL's own components (the lower-cased scheme, no
    empty [?] or [#]); it is the input itself whenever the input has that
    form, and with a user name present it splits into the same five
    components as the input. *)
Theorem clone_url_credentials
    (self : GithubActionsMainVcs) (history_depth : option Z)
    (destination_directory clone_url : string) (r : SplitResult) :
  urlsplit env clone_url = Returns r ->
  (scheme r = "https" -> truthy (username r) = false ->
   _clone env self history_depth destination_directory clone_url
   = Returns {| call_history_depth := history_depth;
                call_destination_directory := destination_directory;
                call_clone_url :=
                  urlunsplit (with_token (token (self_settings self)) r) |}
   /\ urlunsplit (with_token (token (self_settings self)) r)
      = "https://" ++ token (self_settings self) ++ "@" ++ netloc r
        ++ rooted (path r) ++ with_query (query r)
        ++ with_fragment (fragment r)
   /\ (token_fits (token (self_settings self)) = true ->
       _checknetloc env (token (self_settings self) ++ "@" ++ netloc r)
       = Returns tt ->
       urlsplit env (urlunsplit (with_token (token (self_settings self)) r))
       = Returns {| scheme := "https";
                    netloc := token (self_settings self) ++ "@" ++ netloc r;
                    path := rooted (path r);
                    query := query r;
                    fragment := fragment r |})
   /\ (isascii (token (self_settings self)) = true ->
       isascii (netloc r) = true ->
       _checknetloc env (token (self_settings self) ++ "@" ++ netloc r)
       = Returns tt))
  /\ ((scheme r <> "https" \/ truthy (username r) = true) ->
      _clone env self history_depth destination_directory clone_url
      = Returns {| call_history_depth := history_depth;
                   call_destination_directory := destination_directory;
                   call_clone_url := urlunsplit r |}
      /\ (clone_url = urlunsplit r ->
          _clone env self history_depth destination_directory clone_url
          = Returns {| call_history_depth := history_depth;
                       call_destination_directory := destination_directory;
                       call_clone_url := clone_url |})
      /\ (truthy (username r) = true ->
          urlsplit env (urlunsplit r) = Returns r)).
Proof.
  intros Hr. split.
  - intros Hs Hu.
    assert (Hin : injects r = true).
    { unfold injects. now rewrite Hs, Hu. }
    split; [|split; [|split]].
    + rewrite (clone_run self _ _ _ r Hr). now rewrite Hin.
    + now apply urlunsplit_with_token.
    + intros Ht Hc.
      rewrite (urlsplit_with_token _ clone_url r Ht Hc Hr Hs).
      now rewrite read_back_with_token, Hs.
    + apply checknetloc_ascii_token.
  - intros Hno.
    assert (Hin : injects r = false).
    { unfold injects. destruct Hno as [Hs|Hu].
      - apply String.eqb_neq in Hs. now rewrite Hs.
      - rewrite Hu. apply andb_false_r. }
    assert (Hrun :
              _clone env self history_depth destination_directory clone_url
              = Returns {| call_history_depth := history_depth;
                           call_destination_directory :=
                             destination_directory;
                           call_clone_url := urlunsplit r |}).
    { rewrite (clone_run self _ _ _ r Hr). now rewrite Hin. }
    split; [exact Hrun|]. split.
    + intros E. rewrite Hrun. now rewrite <- E.
    + intros Hu. pose proof (username_needs_netloc r Hu) as Hn.
      rewrite (urlsplit_urlunsplit env r).
      * now rewrite (read_back_same clone_url r Hr Hn).
      * now apply (urlsplit_well_parsed env clone_url).
      * now rewrite Hn.
Qed.

(** C3 (amended): for a token that is not empty, does not start with a
    colon and has none of [/?#], brackets, tab, carriage return or newline,
    and a URL whose scheme is https, or whose netloc is not empty, or whose
    path does not start with two slashes, and for which, when the token
    goes in (scheme https, no user name), [token@netloc] passes the check
    [urlsplit] makes of a netloc under NFKC normalisation, a second
    [_clone] on the URL the first one passed on passes on that same URL. *)
Theorem clone_url_injection_idempotent
    (self : GithubActionsMainVcs) (history_depth : option Z)
    (destination_directory clone_url : string) (r : SplitResult)
    (first : clone_call) :
  token_fits (token (self_settings self)) = true ->
  urlsplit env clone_url = Returns r ->
  (scheme r = "https" \/ nonempty (netloc r) = true
   \/ (take 2 (path r) =? "//") = false) ->
  (scheme r = "https" -> truthy (username r) = false ->
   _checknetloc env (token (self_settings self) ++ "@" ++ netloc r)
   = Returns tt) ->
  _clone env self history_depth destination_directory clone_url
  = Returns first ->
  _clone env self history_depth destination_directory (call_clone_url first)
  = Returns first.
Proof.
  intros Ht Hr Hshape Hcheck. rewrite (clone_run self _ _ _ r Hr).
  intros [= <-]. cbn [call_clone_url].
  pose proof (urlsplit_well_parsed env clone_url r Hr) as Hwp.
  destruct (token_fits_parts _ Ht) as (T1 & T2 & _).
  destruct (injects r) eqn:Hin.
  - unfold injects in Hin. apply andb_true_iff in Hin.
    destruct Hin as [Hs Hu]. apply String.eqb_eq in Hs.
    apply negb_true_iff in Hu.
    rewrite (clone_run self _ _ _ _
               (urlsplit_with_token _ clone_url r Ht (Hcheck Hs Hu) Hr Hs)).
    unfold injects at 1. rewrite username_read_back.
    rewrite (username_with_token _ r T1 T2), andb_false_r.
    now rewrite urlunsplit_read_back.
  - assert (Hre : nonempty (netloc r) || negb (take 2 (path r) =? "//")
                  = true).
    { destruct Hshape as [Hs|[Hn|Hp]].
      - unfold injects in Hin. rewrite Hs, String.eqb_refl in Hin.
        cbn [andb] in Hin.
        apply negb_false_iff in Hin.
        now rewrite (username_needs_netloc r Hin).
      - now rewrite Hn.
      - rewrite Hp. apply orb_true_r. }
    rewrite (clone_run self _ _ _ _ (urlsplit_urlunsplit env r Hwp Hre)).
    assert (Hin' : injects (read_back r) = false) by exact Hin.
    rewrite Hin'. now rewrite urlunsplit_read_back.
Qed.

End Cloning.

(** * Worked instances *)

(** ** Reporting *)

(** Changed files [{a.py}], findings for [a.py] and [b.py]: one review
    comment, for [a.py] line 3. *)
Example review_comments_of_sample_report :
  sent (snd (code_report_to_review sample_env sample_self sample_report
               quiet_world))
  = [review_comment sample_self sample_review_url (JStr "abc123")
       "a.py" (JStr "m") (JInt 3)].
Proof.
  reflexivity.
Qed.

Lemma code_report_to_review_sample :
  exists reqs,
    code_report_to_review sample_env sample_self sample_report quiet_world
    = (Returns tt,
       {| sent := (sent quiet_world ++ reqs)%list;
          logged := (logged quiet_world
                     ++ map (fun r => Log_request (req_json r)) reqs)%list |})
    /\ Forall2 (answers sample_self (commit_files_of sample_show_output)
                  sample_review_url (JStr "abc123"))
               (selected (commit_files_of sample_show_output) sample_report)
               reqs.
Proof.
  apply (code_report_to_review_posts_changed_findings
           sample_env sample_self sample_report sample_show_output
           (JStr "abc123") sample_review_url quiet_world).
  - reflexivity.
  - reflexivity.
  - reflexivity.
  - intros history r. reflexivity.
  - intros finding [<-|[]]. exists (JStr "m"), (JInt 3).
    split; reflexivity.
Defined.

Lemma report_result_sample :
  exists r,
    report_result sample_env sample_self true (Some "X") false quiet_world
    = (make_request sample_env (sent quiet_world) r,
       {| sent := (sent quiet_world ++ [r])%list;
          logged := logged quiet_world |})
    /\ req_method r = "POST"
    /\ req_url r = sample_summary_url
    /\ req_json r = JDict [("body", JStr "X")].
Proof.
  apply (report_result_posts_one_summary
           sample_env sample_self true (Some "X") false sample_summary_url
           quiet_world).
  reflexivity.
Defined.

(** An empty report text is not what goes out. *)
Lemma report_result_empty_text_replaced :
  map req_json
      (sent (snd (report_result sample_env sample_self true (Some "") false
                    quiet_world)))
  = [JDict [("body", JStr "Universum check finished")]]
  /\ map req_json
         (sent (snd (report_result sample_env sample_self true (Some "")
                       false quiet_world)))
     <> [JDict [("body", JStr "")]].
Proof.
  split; [reflexivity | discriminate].
Qed.

Lemma report_result_empty_text_sample :
  report_result sample_env sample_self true (Some "") false quiet_world
  = report_result sample_env sample_self true None false quiet_world
  /\ exists r,
       report_result sample_env sample_self true (Some "") false quiet_world
       = (Returns tt, {| sent := [r]; logged := [] |})
       /\ req_method r = "POST"
       /\ req_url r = sample_summary_url
       /\ req_json r = JDict [("body", JStr "Universum check finished")]
       /\ req_json r <> JDict [("body", JStr "")].
Proof.
  exact (report_result_empty_text_is_default
           sample_env sample_self true false quiet_world).
Defined.

(** ** The payload *)

Lemma init_invalid_json_sample :
  exists msg,
    __init__ sample_env sample_settings "{not json" quiet_world
    = (Raises (ConfigurationError msg), quiet_world)
    /\ occurs_in sample_decode_detail msg
    /\ fst (__init__ sample_env sample_settings "{not json" quiet_world)
       <> Raises (JSONDecodeError sample_decode_detail)
    /\ sent (snd (__init__ sample_env sample_settings "{not json"
                    quiet_world))
       = sent quiet_world.
Proof.
  apply (init_reports_decode_failure
           sample_env sample_settings "{not json" sample_decode_detail
           quiet_world).
  reflexivity.
Defined.

(** The payload of the specification's example: the repository URL, the
    ref and the review link. *)
Example init_sample_payload :
  exists self,
    __init__ sample_env sample_settings "payload" quiet_world
    = (Returns self, quiet_world)
    /\ repo (self_settings self) = JStr "https://x/y.git"
    /\ refspec (self_settings self) = JStr "feat"
    /\ get_review_link self = Returns (JStr "https://x/y/pull/1")
    /\ is_latest_version self = true.
Proof.
  eexists. split; [reflexivity|]. repeat split.
Qed.

Lemma get_review_link_sample :
  get_review_link sample_self = Returns (JStr "https://x/y/pull/1")
  /\ exists e, get_review_link bare_self = Raises e /\ lookup_error e.
Proof.
  split.
  - apply (proj1 (get_review_link_field sample_self)). reflexivity.
  - apply (proj2 (get_review_link_field bare_self)). reflexivity.
Defined.

Lemma payload_shape_sample :
  (exists e,
      __init__ sample_env sample_settings "{}" quiet_world
      = (Raises e, quiet_world)
      /\ lookup_error e)
  /\ (exists self,
        __init__ sample_env sample_settings "bare" quiet_world
        = (Returns self, quiet_world)
        /\ (exists e, get_review_link self = Raises e /\ lookup_error e)
        /\ (exists e,
              report_result sample_env self true None false quiet_world
              = (Raises e, quiet_world)
              /\ lookup_error e)
        /\ (exists e,
              code_report_to_review sample_env self sample_report quiet_world
              = (Raises e, quiet_world)
              /\ lookup_error e)).
Proof.
  split.
  - destruct (payload_shape_checked_at_construction_and_at_use
                sample_env sample_settings "{}" (JDict []) quiet_world
                eq_refl) as [Heager _].
    destruct (Heager (or_introl eq_refl)) as (e & Hrun & Hlook & _).
    exists e. split; assumption.
  - destruct (payload_shape_checked_at_construction_and_at_use
                sample_env sample_settings "bare" bare_document quiet_world
                eq_refl) as [_ Hlazy].
    destruct (Hlazy (JStr "https://x/y.git") (JStr "feat") eq_refl eq_refl)
      as (self & Hrun & _ & Hlink & Hsummary & Hreview).
    exists self. split; [exact Hrun|]. split; [|split].
    + apply Hlink. reflexivity.
    + apply Hsummary. reflexivity.
    + destruct (Hreview sample_report sample_show_output quiet_world eq_refl)
        as (_ & Hsha & _).
      apply Hsha; [discriminate | reflexivity].
Defined.

(** ** The changed files *)

Lemma changed_files_sample :
  post_issues sample_env sample_self ["a.py"; "a.py"] sample_report
    quiet_world
  = post_issues sample_env sample_self (commit_files_of sample_show_output)
      sample_report quiet_world.
Proof.
  apply (proj2 (proj2 (changed_files_are_the_lines_after_the_first
                         sample_env sample_show_output))).
  intros p. change (commit_files_of sample_show_output) with ["a.py"].
  cbn [In]. tauto.
Defined.

(** An empty line after the first counts as the empty path, and a finding
    filed under the empty path is commented on. *)
Lemma empty_line_is_a_changed_file :
  In "" (commit_files_of blank_line_output)
  /\ ~ In "" (changed_files_as_specified blank_line_output)
  /\ map req_json
         (sent (snd (code_report_to_review blank_line_env sample_self
                       [("", [JDict [("message", JStr "m");
                                     ("line", JInt 1)]])]
                       quiet_world)))
     = [JDict [("path", JStr ""); ("commit_id", JStr "abc123");
               ("body", JStr "m"); ("line", JInt 1);
               ("side", JStr "RIGHT")]].
Proof.
  split; [|split].
  - left. reflexivity.
  - intros [H|[]]. discriminate H.
  - reflexivity.
Qed.

(** ** Cloning *)

(** URLs that are not https, or that name a user, in the form [urlunsplit]
    writes: passed on as they are. *)
Example clone_urls_passed_on_unchanged :
  map (fun url =>
         match _clone sample_env sample_self None "dir" url with
         | Returns call => call_clone_url call
         | Raises _ => "raised"
         end)
      ["ssh://git@host/repo.git"; "git@github.com:org/repo.git";
       "https://user@host/repo.git"; "http://host/repo.git?a=1#top"]
  = ["ssh://git@host/repo.git"; "git@github.com:org/repo.git";
     "https://user@host/repo.git"; "http://host/repo.git?a=1#top"].
Proof.
  reflexivity.
Qed.

(** The token goes in behind an upper-case scheme too, in front of an empty
    user name, and a path without a leading slash gets one. *)
Example clone_urls_with_token :
  map (fun url =>
         match _clone sample_env sample_self None "dir" url with
         | Returns call => call_clone_url call
         | Raises _ => "raised"
         end)
      ["HTTPS://github.com/o/r.git"; "https://:pw@host/r.git";
       "https:o/r.git"; "https://host/r.git?a=1#top"]
  = ["https://tok@github.com/o/r.git"; "https://tok@:pw@host/r.git";
     "https://tok@/o/r.git"; "https://tok@host/r.git?a=1#top"].
Proof.
  reflexivity.
Qed.

(** Why the netloc or the path matters for a second call: with an empty
    netloc and a path that starts with two slashes, what [urlunsplit]
    writes reads back with a netloc, here one that [urlsplit] rejects. *)
Example clone_url_double_slash_path :
  _clone sample_env sample_self None "dir" "http:////[x"
  = Returns {| call_history_depth := None;
               call_destination_directory := "dir";
               call_clone_url := "http://[x" |}
  /\ _clone sample_env sample_self None "dir" "http://[x"
     = Raises (ValueError "Invalid IPv6 URL").
Proof.
  split; reflexivity.
Qed.

Lemma clone_url_credentials_sample :
  _clone sample_env sample_self None "dir" sample_clone_url
  = Returns {| call_history_depth := None;
               call_destination_directory := "dir";
               call_clone_url := "https://tok@github.com/o/r.git" |}
  /\ urlsplit sample_env "https://tok@github.com/o/r.git"
     = Returns {| scheme := "https"; netloc := "tok@github.com";
                  path := "/o/r.git"; query := ""; fragment := "" |}.
Proof.
  destruct (clone_url_credentials sample_env sample_self None "dir"
              sample_clone_url sample_split eq_refl) as [Hinject _].
  destruct (Hinject eq_refl eq_refl) as (Hrun & _ & Hback & _).
  split; [exact Hrun | exact (Hback eq_refl eq_refl)].
Defined.

(** A URL with a user name and an empty query does not come back as it
    was. *)
Lemma clone_url_with_user_name_rewritten :
  urlsplit sample_env "https://user@host/repo.git?"
  = Returns {| scheme := "https"; netloc := "user@host";
               path := "/repo.git"; query := ""; fragment := "" |}
  /\ username {| scheme := "https"; netloc := "user@host";
                 path := "/repo.git"; query := ""; fragment := "" |}
     = Some "user"
  /\ _clone sample_env sample_self None "dir" "https://user@host/repo.git?"
     = Returns {| call_history_depth := None;
                  call_destination_directory := "dir";
                  call_clone_url := "https://user@host/repo.git" |}
  /\ "https://user@host/repo.git" <> "https://user@host/repo.git?".
Proof.
  repeat split; try reflexivity. discriminate.
Qed.

Lemma clone_url_injection_idempotent_sample :
  _clone sample_env sample_self None "dir" "https://tok@github.com/o/r.git"
  = Returns {| call_history_depth := None;
               call_destination_directory := "dir";
               call_clone_url := "https://tok@github.com/o/r.git" |}.
Proof.
  apply (clone_url_injection_idempotent
           sample_env sample_self None "dir" sample_clone_url sample_split
           {| call_history_depth := None;
              call_destination_directory := "dir";
              call_clone_url := "https://tok@github.com/o/r.git" |}).
  - reflexivity.
  - reflexivity.
  - left. reflexivity.
  - intros _ _. reflexivity.
  - reflexivity.
Defined.

(** A token with a slash in it is put in a second time. *)
Lemma clone_url_slash_token_injected_twice :
  _clone sample_env slash_token_self None "dir" sample_clone_url
  = Returns {| call_history_depth := None;
               call_destination_directory := "dir";
               call_clone_url := "https://t/k@github.com/o/r.git" |}
  /\ _clone sample_env slash_token_self None "dir"
       "https://t/k@github.com/o/r.git"
     = Returns {| call_history_depth := None;
                  call_destination_directory := "dir";
                  call_clone_url := "https://t/k@t/k@github.com/o/r.git" |}
  /\ "https://t/k@t/k@github.com/o/r.git" <> "https://t/k@github.com/o/r.git".
Proof.
  repeat split; try reflexivity. discriminate.
Qed.

(** A token that is not ASCII can pass every test on its characters and
    still not read back: with U+2100 in it the token goes in once, and the
    URL then passed on is one [urlsplit] rejects in its NFKC check. *)
Example clone_url_account_token_rejected :
  token_fits (token (self_settings account_token_self)) = true
  /\ _clone sample_env account_token_self None "dir" sample_clone_url
     = Returns {| call_history_depth := None;
                  call_destination_directory := "dir";
                  call_clone_url :=
                    "https://a" ++ account_of ++ "b@github.com/o/r.git" |}
  /\ _clone sample_env account_token_self None "dir"
       ("https://a" ++ account_of ++ "b@github.com/o/r.git")
     = Raises (ValueError ("netloc 'a" ++ account_of ++ "b@github.com' "
                           ++ "contains invalid characters under NFKC "
                           ++ "normalization")).
Proof.
  repeat split; reflexivity.
Qed.

(** * Further properties *)

(** ** The loop over the findings *)

Lemma for_each_app {A : Type} (xs ys : list A) (body : A -> M unit)
    (w : world) :
  for_each (xs ++ ys)%list body w
  = match for_each xs body w with
    | (Returns _, w') => for_each ys body w'
    | (Raises e, w') => (Raises e, w')
    end.
Proof.
  revert w. induction xs as [|x xs IH]; intros w; cbn [app for_each].
  - reflexivity.
  - unfold bind. destruct (body x w) as [[u|e] w1]; [apply IH | reflexivity].
Qed.

Lemma for_each_findings_of_file (env : collaborators)
    (self : GithubActionsMainVcs) (path : string) (issues : list json)
    (w : world) :
  for_each (map (pair path) issues) (post_finding env self) w
  = for_each issues (post_issue env self path) w.
Proof.
  revert w. induction issues as [|issue rest IH]; intros w;
    cbn [map for_each].
  - reflexivity.
  - unfold bind, post_finding at 1. cbn [fst snd].
    destruct (post_issue env self path issue w) as [[u|e] w1];
      [apply IH | reflexivity].
Qed.

(** The two nested loops are one loop over the selected findings. *)
Lemma post_issues_flat (env : collaborators) (self : GithubActionsMainVcs)
    (files : list string) (report : list (string * list json)) (w : world) :
  post_issues env self files report w
  = for_each (selected files report) (post_finding env self) w.
Proof.
  unfold post_issues. revert w.
  induction report as [|[path issues] rest IH]; intros w;
    cbn [for_each selected flat_map].
  - reflexivity.
  - unfold bind. destruct (in_list path files).
    + rewrite for_each_app, for_each_findings_of_file.
      destruct (for_each issues (post_issue env self path) w)
        as [[u|e] w1]; [apply IH | reflexivity].
    + unfold ret. cbn [app]. apply IH.
Qed.

Lemma selected_in_files (files : list string)
    (report : list (string * list json)) :
  Forall (fun finding => In (fst finding) files) (selected files report).
Proof.
  induction report as [|[path issues] rest IH]; cbn [selected flat_map].
  - constructor.
  - apply Forall_app. split; [|exact IH].
    destruct (in_list path files) eqn:E; [|constructor].
    apply in_list_In in E. apply Forall_forall.
    intros finding Hin. apply in_map_iff in Hin.
    destruct Hin as (issue & <- & _). exact E.
Qed.

(** How one pass of the loop body can end: before anything is logged, after
    the log line, or with the request handed over. *)
Lemma post_issue_cases (env : collaborators) (self : GithubActionsMainVcs)
    (path : string) (issue : json) (w : world) :
  (exists e, post_issue env self path issue w = (Raises e, w))
  \/ (exists e body,
        post_issue env self path issue w
        = (Raises e,
           {| sent := sent w;
              logged := (logged w ++ [Log_request body])%list |}))
  \/ (exists sha url message line,
        getpath (payload_json self) ["pull_request"; "head"; "sha"]
          = Returns sha
        /\ getpath (payload_json self) ["pull_request"; "review_comments_url"]
           = Returns url
        /\ getitem issue "message" = Returns message
        /\ getitem issue "line" = Returns line
        /\ post_issue env self path issue w
           = (make_request env (sent w)
                (review_comment self url sha path message line),
              {| sent := (sent w
                          ++ [review_comment self url sha path message line])
                         %list;
                 logged := (logged w
                            ++ [Log_request
                                  (req_json
                                     (review_comment self url sha path
                                        message line))])%list |})).
Proof.
  destruct (getpath (payload_json self) ["pull_request"; "head"; "sha"])
    as [sha|e] eqn:Hsha.
  2:{ left. exists e. unfold post_issue, bind, lift. now rewrite Hsha. }
  destruct (getitem issue "message") as [message|e] eqn:Hm.
  2:{ left. exists e. unfold post_issue, bind, lift. now rewrite Hsha, Hm. }
  destruct (getitem issue "line") as [line|e] eqn:Hl.
  2:{ left. exists e. unfold post_issue, bind, lift.
      now rewrite Hsha, Hm, Hl. }
  destruct (getpath (payload_json self)
              ["pull_request"; "review_comments_url"]) as [url|e] eqn:Hurl.
  - right. right. exists sha, url, message, line.
    do 4 (split; [reflexivity|]).
    exact (post_issue_run env self sha url path issue message line w
             Hsha Hurl Hm Hl).
  - right. left. exists e. eexists.
    unfold post_issue, bind, lift, out_log. rewrite Hsha, Hm, Hl, Hurl.
    reflexivity.
Qed.

Lemma world_unchanged (w : world) :
  {| sent := (sent w ++ [])%list;
     logged := (logged w ++ map (fun r => Log_request (req_json r)) []
                ++ [])%list |} = w.
Proof.
  destruct w. cbn. now rewrite !app_nil_r.
Qed.

(** What a run of the loop leaves behind: requests for the first [k]
    findings, their bodies in the log, and at most one more logged body. *)
Lemma findings_trace (env : collaborators) (self : GithubActionsMainVcs)
    (files : list string) (findings : list (string * json)) :
  Forall (fun finding => In (fst finding) files) findings ->
  forall w, exists reqs extra k,
    snd (for_each findings (post_finding env self) w)
    = {| sent := (sent w ++ reqs)%list;
         logged := (logged w
                    ++ map (fun r => Log_request (req_json r)) reqs
                    ++ extra)%list |}
    /\ Forall2 (answers_from_payload self files) (firstn k findings) reqs
    /\ (extra = [] \/ exists body, extra = [Log_request body])
    /\ (fst (for_each findings (post_finding env self) w) = Returns tt ->
        k = length findings /\ extra = []).
Proof.
  induction findings as [|finding rest IH]; intros Hin w.
  - exists [], [], 0. cbn [for_each ret snd fst firstn length].
    rewrite world_unchanged. repeat split; auto.
  - pose proof (Forall_inv Hin) as Hfile.
    pose proof (Forall_inv_tail Hin) as Hrest.
    cbn [for_each]. unfold bind, post_finding at 1 3.
    destruct (post_issue_cases env self (fst finding) (snd finding) w)
      as [(e & ->)|[(e & body & ->)|
                    (sha & url & message & line & Hsha & Hurl & Hm & Hl
                     & ->)]].
    + exists [], [], 0. cbn [snd fst firstn].
      rewrite world_unchanged. repeat split; auto; discriminate.
    + exists [], [Log_request body], 0. cbn [snd fst firstn map app].
      rewrite ?app_nil_r. repeat split; eauto; discriminate.
    + set (r := review_comment self url sha (fst finding) message line).
      assert (Hanswer : answers_from_payload self files finding r).
      { exists url, sha. repeat split; auto. exists message, line. auto. }
      destruct (make_request env (sent w) r) as [[]|e].
      * destruct (IH Hrest
                    {| sent := (sent w ++ [r])%list;
                       logged := (logged w ++ [Log_request (req_json r)])
                                 %list |})
          as (reqs & extra & k & Hworld & Hall & Hextra & Hdone).
        exists (r :: reqs), extra, (S k). cbn [sent logged] in Hworld.
        rewrite Hworld. cbn [firstn map length].
        rewrite <- !app_assoc. cbn [app]. repeat split; auto.
        -- f_equal. now apply Hdone.
        -- now apply Hdone.
      * exists [r], [], 1. cbn [snd fst firstn map app].
        rewrite ?app_nil_r. repeat split; auto; discriminate.
Qed.

Lemma Forall2_right {A B : Type} (R : A -> B -> Prop) (P : B -> Prop)
    (xs : list A) (ys : list B) :
  (forall x y, R x y -> P y) -> Forall2 R xs ys -> Forall P ys.
Proof.
  intros H. induction 1; constructor; eauto.
Qed.

(** ** What [code_report_to_review] sends and logs *)

(** X1: whatever the collaborators answer and whatever the payload and the
    report hold, [code_report_to_review] only adds to the requests made so
    far, and every request it adds is a POST with the two GitHub headers
    (the bearer token among them) and the five-minute timeout, goes to the
    payload's review-comments URL and carries a body of the five keys
    [path], [commit_id] (the payload's head SHA), [body], [line] and
    [side = "RIGHT"]. *)
Theorem code_report_to_review_sends_review_posts_only
    (env : collaborators) (self : GithubActionsMainVcs)
    (report : list (string * list json)) (w : world) :
  exists reqs,
    sent (snd (code_report_to_review env self report w))
    = (sent w ++ reqs)%list
    /\ Forall
         (fun r =>
            github_post self r
            /\ getpath (payload_json self)
                 ["pull_request"; "review_comments_url"]
               = Returns (req_url r)
            /\ exists path sha message line,
                 getpath (payload_json self) ["pull_request"; "head"; "sha"]
                 = Returns sha
                 /\ req_json r
                    = JDict [("path", JStr path); ("commit_id", sha);
                             ("body", message); ("line", line);
                             ("side", JStr "RIGHT")])
         reqs.
Proof.
  unfold code_report_to_review, bind, lift.
  destruct (git_show env
              ["--name-only"; "--oneline"; checkout_id (self_settings self)])
    as [text|e].
  - rewrite post_issues_flat.
    destruct (findings_trace env self (commit_files_of text)
                (selected (commit_files_of text) report)
                (selected_in_files _ _) w)
      as (reqs & extra & k & Hworld & Hall & _).
    exists reqs. rewrite Hworld. split; [reflexivity|].
    eapply Forall2_right; [|exact Hall].
    intros finding r (url & sha & Hsha & Hurl & _ & message & line & _ & _
                      & ->).
    split; [repeat split|]. split; [exact Hurl|].
    exists (fst finding), sha, message, line. now split.
  - exists []. cbn [snd]. now rewrite app_nil_r.
Qed.


(** X3: [code_report_to_review] logs each request body before it hands the
    request over: the log grows by the bodies of the requests made, in
    order, followed by at most one more body (that of a request that was
    not made because the review-comments URL is missing), and nothing that
    was logged before is lost. *)
Theorem code_report_to_review_logs_what_it_sends
    (env : collaborators) (self : GithubActionsMainVcs)
    (report : list (string * list json)) (w : world) :
  exists reqs extra,
    sent (snd (code_report_to_review env self report w))
    = (sent w ++ reqs)%list
    /\ logged (snd (code_report_to_review env self report w))
       = (logged w ++ map (fun r => Log_request (req_json r)) reqs
          ++ extra)%list
    /\ (extra = [] \/ exists body, extra = [Log_request body])
    /\ (fst (code_report_to_review env self report w) = Returns tt ->
        extra = []).
Proof.
  unfold code_report_to_review, bind, lift.
  destruct (git_show env
              ["--name-only"; "--oneline"; checkout_id (self_settings self)])
    as [text|e].
  - rewrite post_issues_flat.
    destruct (findings_trace env self (commit_files_of text)
                (selected (commit_files_of text) report)
                (selected_in_files _ _) w)
      as (reqs & extra & k & Hworld & _ & Hextra & Hdone).
    exists reqs, extra. rewrite Hworld. repeat split; auto.
    intros H. now apply Hdone.
  - exists [], []. cbn [snd map app]. rewrite !app_nil_r.
    repeat split; auto.
Qed.

Lemma split_without_separator (sep : ascii) (s : string) :
  in_str sep s = false -> split sep s = [s].
Proof.
  induction s as [|c s IH]; cbn [in_str split]; [reflexivity|].
  rewrite orb_false_iff. intros [Hc Hs]. now rewrite Hc, (IH Hs).
Qed.

Lemma selected_without_files (report : list (string * list json)) :
  selected [] report = [].
Proof.
  induction report as [|[path issues] rest IH];
    cbn [selected flat_map in_list existsb app]; [reflexivity | exact IH].
Qed.

(** X4: when the diff-summary query prints a single line (a commit that
    touches no file), [code_report_to_review] returns without a request and
    without a log line, for every report and every payload, malformed ones
    included. *)
Theorem code_report_to_review_without_changed_files
    (env : collaborators) (self : GithubActionsMainVcs)
    (report : list (string * list json)) (text : string) (w : world) :
  git_show env ["--name-only"; "--oneline"; checkout_id (self_settings self)]
    = Returns text ->
  in_str newline text = false ->
  code_report_to_review env self report w = (Returns tt, w).
Proof.
  intros Hgit Hline. unfold code_report_to_review, bind, lift. rewrite Hgit.
  unfold commit_files_of. rewrite (split_without_separator _ _ Hline).
  cbn [tl]. apply post_issues_nothing_selected, selected_without_files.
Qed.

(** ** The summary *)

(** X5: [report_result] never writes to the log and hands over at most one
    request: none, with the subscript's error raised, when the payload has
    no [pull_request.comments_url]; otherwise exactly one, a POST with the
    GitHub headers and the timeout to that URL, and the call returns what
    the HTTP helper answers. *)
Theorem report_result_sends_at_most_one
    (env : collaborators) (self : GithubActionsMainVcs) (result : bool)
    (report_text : option string) (no_vote : bool) (w : world) :
  logged (snd (report_result env self result report_text no_vote w))
  = logged w
  /\ ((exists e,
          report_result env self result report_text no_vote w = (Raises e, w)
          /\ lookup_error e
          /\ field_of (payload_json self) ["pull_request"; "comments_url"]
             = None)
      \/ (exists r,
            report_result env self result report_text no_vote w
            = (make_request env (sent w) r,
               {| sent := (sent w ++ [r])%list; logged := logged w |})
            /\ github_post self r
            /\ field_of (payload_json self) ["pull_request"; "comments_url"]
               = Some (req_url r))).
Proof.
  destruct (field_of (payload_json self) ["pull_request"; "comments_url"])
    as [url|] eqn:E.
  - pose proof (report_result_run env self result report_text no_vote url w
                  (getpath_present _ _ _ E)) as Hrun.
    cbv zeta in Hrun. rewrite Hrun. split; [reflexivity|]. right.
    eexists. split; [reflexivity|]. split; [repeat split | reflexivity].
  - destruct (getpath_absent _ _ E) as (e & He & Hlook).
    assert (Hrun : report_result env self result report_text no_vote w
                   = (Raises e, w)).
    { unfold report_result, bind, lift. now rewrite He. }
    rewrite Hrun. split; [reflexivity|]. left. exists e. auto.
Qed.

(** ** The lines of the diff summary *)

Lemma split_not_empty (sep : ascii) (s : string) : split sep s <> [].
Proof.
  destruct s as [|c s]; cbn [split]; [discriminate|].
  destruct (Ascii.eqb c sep); [discriminate|].
  destruct (split sep s); discriminate.
Qed.

Lemma split_at_first (sep : ascii) (a b : string) :
  in_str sep a = false -> split sep (a ++ String sep b) = a :: split sep b.
Proof.
  induction a as [|c a IH]; cbn [append in_str split].
  - intros _. now rewrite Ascii.eqb_refl.
  - rewrite orb_false_iff. intros [Hc Ha]. now rewrite Hc, (IH Ha).
Qed.

(** X6: the first line of the diff summary, and only the first line, is
    dropped: for an output made of a first line without a newline, a
    newline and the rest, the changed files are the rest cut at its
    newlines. *)
Theorem commit_files_drop_the_first_line (first rest : string) :
  in_str newline first = false ->
  commit_files_of (first ++ String newline rest) = split newline rest.
Proof.
  intros H. unfold commit_files_of. now rewrite (split_at_first _ _ _ H).
Qed.

Lemma join_cons (sep : ascii) (p : string) (rest : list string) :
  rest <> [] -> join sep (p :: rest) = p ++ String sep (join sep rest).
Proof.
  destruct rest; [congruence | reflexivity].
Qed.

Lemma join_head_char (sep c : ascii) (h : string) (t : list string) :
  join sep (String c h :: t) = String c (join sep (h :: t)).
Proof.
  destruct t; reflexivity.
Qed.

Lemma join_split (sep : ascii) (s : string) : join sep (split sep s) = s.
Proof.
  induction s as [|c s IH]; cbn [split]; [reflexivity|].
  destruct (Ascii.eqb c sep) eqn:E.
  - apply Ascii.eqb_eq in E. subst c.
    rewrite join_cons by apply split_not_empty. now rewrite IH.
  - destruct (split sep s) as [|h t] eqn:Es.
    + now apply split_not_empty in Es.
    + now rewrite join_head_char, IH.
Qed.

(** X7: cutting the output at its newlines loses nothing: the lines joined
    with newlines are the output again, and for an output with a newline in
    it the first line, a newline and the joined changed files are the
    output. *)
Theorem split_lines_join_back (text : string) :
  join newline (split newline text) = text
  /\ (in_str newline text = true ->
      exists first,
        in_str newline first = false
        /\ text
           = first ++ String newline (join newline (commit_files_of text))).
Proof.
  split; [apply join_split|].
  intros H. destruct (first_occurrence _ _ H) as (first & rest & -> & Hfirst).
  exists first. split; [exact Hfirst|].
  unfold commit_files_of. rewrite (split_at_first _ _ _ Hfirst).
  cbn [tl]. now rewrite join_split.
Qed.

Lemma split_pieces (sep : ascii) (s : string) :
  Forall (fun piece => in_str sep piece = false) (split sep s)
  /\ length (split sep s) = S (count_char sep s).
Proof.
  induction s as [|c s [IH1 IH2]]; cbn [split count_char].
  - split; [repeat constructor | reflexivity].
  - destruct (Ascii.eqb c sep) eqn:E.
    + split; [now constructor | cbn [length]; now rewrite IH2].
    + destruct (split sep s) as [|h t] eqn:Es.
      * now apply split_not_empty in Es.
      * split; [|exact IH2].
        inversion IH1 as [|x l Hh Ht]; subst. constructor; [|exact Ht].
        cbn [in_str]. now rewrite E, Hh.
Qed.

(** X8: the changed-file list has one entry for each newline of the diff
    summary, and no entry has a newline in it. *)
Theorem commit_files_count_and_content (text : string) :
  length (commit_files_of text) = count_char newline text
  /\ Forall (fun p => in_str newline p = false) (commit_files_of text).
Proof.
  destruct (split_pieces newline text) as [Hall Hlen].
  unfold commit_files_of.
  destruct (split newline text) as [|h t]; [discriminate|].
  cbn [tl length] in *. split; [congruence|].
  now inversion Hall.
Qed.

(** ** Construction *)

(** X9: construction talks to nobody: whatever the payload text is and
    however construction ends, no request was handed over and nothing was
    logged; and a decode error of [json.loads] never comes out of it as a
    decode error. *)
Theorem init_leaves_the_world_alone
    (env : collaborators) (s : settings) (payload_text : string) (w : world) :
  snd (__init__ env s payload_text w) = w
  /\ forall detail,
       fst (__init__ env s payload_text w) <> Raises (JSONDecodeError detail).
Proof.
  unfold __init__.
  destruct (json_loads env payload_text) as [doc|e].
  - unfold bind, lift, ret.
    pose proof (getpath_field_of doc ["repository"; "html_url"]) as H1.
    pose proof (getpath_field_of doc ["pull_request"; "head"; "ref"]) as H2.
    destruct (field_of doc ["repository"; "html_url"]).
    + rewrite H1.
      destruct (field_of doc ["pull_request"; "head"; "ref"]).
      * rewrite H2. split; [reflexivity | discriminate].
      * destruct H2 as (e & -> & [[k ->]|[o ->]]);
          (split; [reflexivity | discriminate]).
    + destruct H1 as (e & -> & [[k ->]|[o ->]]);
        (split; [reflexivity | discriminate]).
  - destruct e; (split; [reflexivity | discriminate]).
Qed.

(** X10: the [except] clause of construction catches the decode error and
    nothing else: any other exception of [json.loads] leaves construction
    as it is. *)
Theorem init_passes_other_exceptions_on
    (env : collaborators) (s : settings) (payload_text : string) (e : exn)
    (w : world) :
  json_loads env payload_text = Raises e ->
  (forall detail, e <> JSONDecodeError detail) ->
  __init__ env s payload_text w = (Raises e, w).
Proof.
  intros Hload Hother. unfold __init__. rewrite Hload.
  destruct e; try reflexivity. now destruct (Hother detail).
Qed.

(** X11: what a successful construction has established: the payload text
    parsed, the document is kept as [payload_json], [settings.repo] and
    [settings.refspec] are the document's [repository.html_url] and
    [pull_request.head.ref], and the token and the checkout id are as they
    were. *)
Theorem init_success_establishes
    (env : collaborators) (s : settings) (payload_text : string)
    (self : GithubActionsMainVcs) (w w' : world) :
  __init__ env s payload_text w = (Returns self, w') ->
  w' = w
  /\ json_loads env payload_text = Returns (payload_json self)
  /\ payload self = payload_text
  /\ field_of (payload_json self) ["repository"; "html_url"]
     = Some (repo (self_settings self))
  /\ field_of (payload_json self) ["pull_request"; "head"; "ref"]
     = Some (refspec (self_settings self))
  /\ token (self_settings self) = token s
  /\ checkout_id (self_settings self) = checkout_id s.
Proof.
  unfold __init__.
  destruct (json_loads env payload_text) as [doc|e].
  - unfold bind, lift, ret.
    destruct (getpath doc ["repository"; "html_url"]) as [repo_url|e] eqn:H1;
      [|discriminate].
    destruct (getpath doc ["pull_request"; "head"; "ref"]) as [ref|e] eqn:H2;
      [|discriminate].
    intros [= <- <-]. cbn [payload_json payload self_settings repo refspec
                           token checkout_id].
    repeat split; auto using getpath_returns_field.
  - destruct e; discriminate.
Qed.

(** ** What [_clone] does not look at *)

Lemma remove_char_app (b : ascii) (x y : string) :
  remove_char b (x ++ y) = remove_char b x ++ remove_char b y.
Proof.
  induction x as [|c x IH]; cbn [append remove_char]; [reflexivity|].
  destruct (Ascii.eqb c b); cbn [append]; now rewrite IH.
Qed.

Lemma remove_unsafe_app (x y : string) :
  fold_left (fun u b => remove_char b u) _UNSAFE_URL_BYTES_TO_REMOVE (x ++ y)
  = fold_left (fun u b => remove_char b u) _UNSAFE_URL_BYTES_TO_REMOVE x
    ++ fold_left (fun u b => remove_char b u) _UNSAFE_URL_BYTES_TO_REMOVE y.
Proof.
  cbn [fold_left _UNSAFE_URL_BYTES_TO_REMOVE].
  now rewrite !remove_char_app.
Qed.

Lemma remove_unsafe_char (c : ascii) (s : string) :
  is_unsafe c = true ->
  fold_left (fun u b => remove_char b u) _UNSAFE_URL_BYTES_TO_REMOVE
            (String c s)
  = fold_left (fun u b => remove_char b u) _UNSAFE_URL_BYTES_TO_REMOVE s.
Proof.
  intros H. apply is_unsafe_cases in H.
  destruct H as [->|[->| ->]]; reflexivity.
Qed.

Lemma clean_stripped_char (x : ascii) (s : string) :
  in_str x _WHATWG_C0_CONTROL_OR_SPACE = true -> clean (String x s) = clean s.
Proof.
  intros H. unfold clean. cbn [lstrip]. now rewrite H.
Qed.

Lemma clean_kept_char (x : ascii) (s : string) :
  in_str x _WHATWG_C0_CONTROL_OR_SPACE = false ->
  clean (String x s)
  = fold_left (fun u b => remove_char b u) _UNSAFE_URL_BYTES_TO_REMOVE
              (String x s).
Proof.
  intros H. unfold clean. now rewrite lstrip_head.
Qed.

Lemma clean_without_unsafe_char (a b : string) (c : ascii) :
  is_unsafe c = true -> clean (a ++ String c b) = clean (a ++ b).
Proof.
  intros Hc. induction a as [|x a IH]; cbn [append].
  - apply clean_stripped_char. now apply unsafe_is_stripped.
  - destruct (in_str x _WHATWG_C0_CONTROL_OR_SPACE) eqn:E.
    + now rewrite !clean_stripped_char.
    + rewrite !clean_kept_char by exact E.
      change (String x (a ++ String c b)) with (String x a ++ String c b).
      change (String x (a ++ b)) with (String x a ++ b).
      now rewrite !remove_unsafe_app, (remove_unsafe_char c b Hc).
Qed.

Lemma clean_without_leading_space (ws url : string) :
  all_chars (fun c => in_str c _WHATWG_C0_CONTROL_OR_SPACE) ws = true ->
  clean (ws ++ url) = clean url.
Proof.
  induction ws as [|x ws IH]; cbn [append all_chars]; [reflexivity|].
  rewrite andb_true_iff. intros [Hx Hws].
  rewrite clean_stripped_char by exact Hx. now apply IH.
Qed.

Lemma urlsplit_of_clean (env : collaborators) (url1 url2 : string) :
  clean url1 = clean url2 -> urlsplit env url1 = urlsplit env url2.
Proof.
  intros H. now rewrite !urlsplit_stages, H.
Qed.

Lemma clone_of_urlsplit (env : collaborators) (self : GithubActionsMainVcs)
    (history_depth : option Z) (destination_directory url1 url2 : string) :
  urlsplit env url1 = urlsplit env url2 ->
  _clone env self history_depth destination_directory url1
  = _clone env self history_depth destination_directory url2.
Proof.
  intros H. unfold _clone. now rewrite H.
Qed.

(** X12: [_clone] does not see white space in front of the URL, nor a tab,
    carriage return or newline anywhere in it: control characters and
    spaces before the URL and any such character inside it can be left out
    without changing what is passed on. *)
Theorem clone_ignores_stripped_characters
    (env : collaborators) (self : GithubActionsMainVcs)
    (history_depth : option Z) (destination_directory : string) :
  (forall ws url,
      all_chars (fun c => in_str c _WHATWG_C0_CONTROL_OR_SPACE) ws = true ->
      _clone env self history_depth destination_directory (ws ++ url)
      = _clone env self history_depth destination_directory url)
  /\ (forall a b c,
        In c _UNSAFE_URL_BYTES_TO_REMOVE ->
        _clone env self history_depth destination_directory
          (a ++ String c b)
        = _clone env self history_depth destination_directory (a ++ b)).
Proof.
  split.
  - intros ws url H.
    apply clone_of_urlsplit, urlsplit_of_clean.
    now apply clean_without_leading_space.
  - intros a b c H.
    apply clone_of_urlsplit, urlsplit_of_clean, clean_without_unsafe_char.
    unfold is_unsafe. apply existsb_exists. exists c.
    split; [exact H | apply Ascii.eqb_refl].
Qed.

Lemma clean_behind_scheme (s0 rest : string) :
  scheme_like s0 = true ->
  clean (s0 ++ ":" ++ rest)
  = s0 ++ ":"
    ++ fold_left (fun u b => remove_char b u) _UNSAFE_URL_BYTES_TO_REMOVE
                 rest.
Proof.
  intros Hs.
  assert (Hsafe : no_unsafe s0 = true).
  { apply (all_chars_impl (fun c => in_str c scheme_chars)).
    - apply scheme_char_safe.
    - now apply scheme_like_chars. }
  destruct s0 as [|x s0']; [discriminate|].
  assert (Hkeep : in_str x _WHATWG_C0_CONTROL_OR_SPACE = false).
  { unfold scheme_like in Hs. apply andb_true_iff in Hs.
    destruct Hs as [Hx _]. apply alpha_printable in Hx.
    now apply negb_true_iff in Hx. }
  change (clean (String x s0' ++ ":" ++ rest))
    with (clean (String x (s0' ++ ":" ++ rest))).
  rewrite (clean_kept_char x _ Hkeep).
  change (String x (s0' ++ ":" ++ rest))
    with (String x s0' ++ (":" ++ rest)).
  rewrite (remove_unsafe_app (String x s0')), (remove_unsafe_app ":" rest).
  rewrite (remove_unsafe_id _ Hsafe). reflexivity.
Qed.

(** X13: the scheme is read without regard to case: a URL whose scheme is
    written in upper or mixed case is passed on exactly as the URL with the
    scheme in lower case, so [HTTPS://...] gets the token as
    [https://...] does. *)
Theorem clone_scheme_case_insensitive
    (env : collaborators) (self : GithubActionsMainVcs)
    (history_depth : option Z) (destination_directory : string)
    (scheme_text rest : string) :
  scheme_like scheme_text = true ->
  _clone env self history_depth destination_directory
    (scheme_text ++ ":" ++ rest)
  = _clone env self history_depth destination_directory
      (lower scheme_text ++ ":" ++ rest).
Proof.
  intros Hs. apply clone_of_urlsplit. rewrite !urlsplit_stages.
  rewrite (clean_behind_scheme _ rest Hs).
  rewrite (clean_behind_scheme _ rest (scheme_like_lower _ Hs)).
  rewrite (split_scheme_of_parts _ _ Hs).
  rewrite (split_scheme_of_parts _ _ (scheme_like_lower _ Hs)).
  now rewrite lower_idempotent.
Qed.

(** ** When [_clone] raises *)

Lemma in_str_lstrip_false (c : ascii) (chars s : string) :
  in_str c s = false -> in_str c (lstrip chars s) = false.
Proof.
  induction s as [|x s IH]; cbn [lstrip]; [reflexivity|].
  intros H. destruct (in_str x chars); [|exact H].
  apply IH. cbn [in_str] in H. now apply orb_false_iff in H.
Qed.

Lemma in_str_clean_false (c : ascii) (url : string) :
  in_str c url = false -> in_str c (clean url) = false.
Proof.
  intros H. unfold clean. cbn [fold_left _UNSAFE_URL_BYTES_TO_REMOVE].
  rewrite !in_str_remove_char, (in_str_lstrip_false c _ url H).
  reflexivity.
Qed.

Lemma all_chars_lstrip (p : ascii -> bool) (chars s : string) :
  all_chars p s = true -> all_chars p (lstrip chars s) = true.
Proof.
  induction s as [|x s IH]; cbn [lstrip]; [reflexivity|].
  intros H. destruct (in_str x chars); [|exact H].
  apply IH. cbn [all_chars] in H. now apply andb_true_iff in H.
Qed.

Lemma all_chars_remove_char (p : ascii -> bool) (b : ascii) (s : string) :
  all_chars p s = true -> all_chars p (remove_char b s) = true.
Proof.
  induction s as [|x s IH]; cbn [remove_char all_chars]; [reflexivity|].
  rewrite andb_true_iff. intros [Hx Hs].
  destruct (Ascii.eqb x b); [now apply IH|].
  cbn [all_chars]. now rewrite Hx, (IH Hs).
Qed.

Lemma isascii_clean (url : string) :
  isascii url = true -> isascii (clean url) = true.
Proof.
  intros H. unfold clean, isascii.
  cbn [fold_left _UNSAFE_URL_BYTES_TO_REMOVE].
  now repeat apply all_chars_remove_char; apply all_chars_lstrip.
Qed.

Lemma split_authority_without_brackets (env : collaborators) (url : string) :
  in_str "[" url = false -> in_str "]" url = false ->
  exists n rest,
    split_authority env url = Returns (n, rest)
    /\ (isascii url = true -> isascii n = true).
Proof.
  intros H1 H2. destruct (take 2 url =? "//") eqn:E.
  - destruct (take_2_slashes url E) as (s & ->).
    destruct (no_delimiter_split s) as (n & rest & -> & Hn & Hrest).
    exists n, rest. split.
    + apply split_authority_of_parts; auto.
      left. rewrite !in_str_app, !orb_false_iff in H1, H2. tauto.
    + rewrite !isascii_app, !andb_true_iff. tauto.
  - exists "", url. split; [now apply split_authority_absent | reflexivity].
Qed.

(** X14: an ASCII URL without a square bracket is never rejected:
    whatever else it holds, [_clone] passes a URL on.  ([urlsplit] raises
    in its bracket checks and, for a netloc that is not ASCII, in its NFKC
    check; see [clone_rejects_account_of_netloc].) *)
Theorem clone_accepts_urls_without_brackets
    (env : collaborators) (self : GithubActionsMainVcs)
    (history_depth : option Z) (destination_directory clone_url : string) :
  isascii clone_url = true ->
  in_str "[" clone_url = false -> in_str "]" clone_url = false ->
  exists call,
    _clone env self history_depth destination_directory clone_url
    = Returns call.
Proof.
  intros Ha H1 H2.
  assert (Hsplit : exists r, urlsplit env clone_url = Returns r).
  { rewrite urlsplit_stages.
    apply in_str_clean_false in H1, H2. apply isascii_clean in Ha.
    destruct (split_scheme (clean clone_url)) as [s X] eqn:E.
    assert (HX : in_str "[" X = false /\ in_str "]" X = false
                 /\ isascii X = true).
    { destruct (split_scheme_parts _ _ _ E) as [[_ ->]|(s0 & _ & Heq & _)];
        [now repeat split|].
      rewrite Heq, !in_str_app, !orb_false_iff in H1, H2.
      rewrite Heq, !isascii_app, !andb_true_iff in Ha. tauto. }
    destruct (split_authority_without_brackets env X) as (n & Y & -> & Hn);
      [tauto | tauto |].
    rewrite (checknetloc_ascii env n) by (apply Hn; tauto).
    destruct (split_tail Y) as [[p q] f]. eexists. reflexivity. }
  destruct Hsplit as (r & Hr). rewrite (clone_run env self _ _ _ r Hr).
  eexists. reflexivity.
Qed.

(** ** The user name *)

Lemma partition_head_kept (sep x : ascii) (s : string) :
  Ascii.eqb x sep = false ->
  exists before, fst (fst (partition sep (String x s))) = String x before.
Proof.
  intros H. cbn [partition]. rewrite H.
  destruct (partition sep s) as [[before found] after].
  now exists before.
Qed.

(** X15: when the token goes in.  The user name [_clone] tests is false
    exactly when the netloc has no [@], or starts with a colon (a password
    without a name), or is an [@] followed by text without another [@] (an
    empty name): in these cases, and in no other, an https URL gets the
    token. *)
Theorem username_missing_exactly_when (r : SplitResult) :
  truthy (username r) = false <->
  in_str "@" (netloc r) = false
  \/ (take 1 (netloc r) =? ":") = true
  \/ ((take 1 (netloc r) =? "@") = true
      /\ in_str "@" (drop 1 (netloc r)) = false).
Proof.
  unfold username, _userinfo.
  destruct (in_str "@" (netloc r)) eqn:E.
  - destruct (last_occurrence _ _ E) as (a & b & Heq & Hb).
    rewrite Heq. rewrite (rpartition_last "@" a b Hb).
    destruct a as [|x a'].
    + cbn [partition fst truthy nonempty append take drop].
      split; [|reflexivity]. intros _. right. right. now split.
    + destruct (Ascii.eqb x ":") eqn:Ex.
      * apply Ascii.eqb_eq in Ex. subst x.
        cbn [partition append take]. cbn.
        split; [|reflexivity]. intros _. right. now left.
      * destruct (partition_head_kept ":" x a' Ex) as (before & Hbefore).
        destruct (partition ":" (String x a')) as [[name found] after].
        cbn [fst] in Hbefore. subst name. cbn [fst truthy nonempty].
        change (String x before =? "") with false. cbn [negb].
        split; [discriminate|].
        intros [H|[H|[H1 H2]]].
        -- discriminate.
        -- cbn [append take] in H. apply String.eqb_eq in H.
           injection H as ->. now rewrite Ascii.eqb_refl in Ex.
        -- cbn [append drop] in H2. rewrite in_str_app in H2.
           cbn [in_str] in H2. rewrite Ascii.eqb_refl in H2.
           now rewrite orb_true_r in H2.
  - rewrite (rpartition_notin "@" _ E). cbn [fst truthy].
    split; [now left | reflexivity].
Qed.

(** ** What [_clone] passes on *)

(** X16: a URL that needs no token and has a netloc comes out with the
    components it went in with: the URL passed on splits into the same
    scheme, netloc, path, query and fragment as the URL given. *)
Theorem clone_keeps_components
    (env : collaborators) (self : GithubActionsMainVcs)
    (history_depth : option Z) (destination_directory clone_url : string)
    (r : SplitResult) :
  urlsplit env clone_url = Returns r ->
  (scheme r <> "https" \/ truthy (username r) = true) ->
  nonempty (netloc r) = true ->
  exists call,
    _clone env self history_depth destination_directory clone_url
    = Returns call
    /\ urlsplit env (call_clone_url call) = Returns r.
Proof.
  intros Hr Hno Hn.
  assert (Hin : injects r = false).
  { unfold injects. destruct Hno as [Hs|Hu].
    - apply String.eqb_neq in Hs. now rewrite Hs.
    - rewrite Hu. apply andb_false_r. }
  rewrite (clone_run env self _ _ _ r Hr), Hin.
  eexists. split; [reflexivity|]. cbn [call_clone_url].
  rewrite (urlsplit_urlunsplit env r).
  - now rewrite (read_back_same env clone_url r Hr Hn).
  - now apply (urlsplit_well_parsed env clone_url).
  - now rewrite Hn.
Qed.

Lemma username_of_plain_token (t : string) (r : SplitResult) :
  in_str "@" (netloc r) = false -> in_str ":" t = false ->
  username (with_token t r) = Some t.
Proof.
  intros Hn Ht. unfold username, _userinfo. cbn [with_token netloc].
  change (t ++ "@" ++ netloc r) with (t ++ String "@" (netloc r)).
  rewrite (rpartition_last "@" t (netloc r) Hn).
  now rewrite (partition_notin ":" t Ht).
Qed.

(** X17: let the token be not empty, not start with a colon and have none
    of [/?#], brackets, tab, carriage return or newline, and let
    [urlsplit] accept an https URL; if the URL names no user, let
    [token@netloc] pass the NFKC check of [urlsplit].  Then [_clone]
    passes on an https URL that [urlsplit] accepts and that names a user
    (a non-empty one).  If the URL given named a user, the URL passed on
    has the same five components.  If not, its netloc is [token@netloc];
    the user it names is then the token itself when the netloc given has
    no [@] and the token no colon (otherwise it need not be: from
    [https://:pw@host/r.git] and token [tok] the user is [tok@]). *)
Theorem clone_https_names_a_user
    (env : collaborators) (self : GithubActionsMainVcs)
    (history_depth : option Z) (destination_directory clone_url : string)
    (r : SplitResult) :
  token_fits (token (self_settings self)) = true ->
  urlsplit env clone_url = Returns r ->
  scheme r = "https" ->
  (truthy (username r) = false ->
   _checknetloc env (token (self_settings self) ++ "@" ++ netloc r)
   = Returns tt) ->
  exists call r',
    _clone env self history_depth destination_directory clone_url
    = Returns call
    /\ urlsplit env (call_clone_url call) = Returns r'
    /\ scheme r' = "https"
    /\ truthy (username r') = true
    /\ (truthy (username r) = true -> r' = r)
    /\ (truthy (username r) = false ->
        netloc r' = token (self_settings self) ++ "@" ++ netloc r
        /\ (in_str "@" (netloc r) = false ->
            in_str ":" (token (self_settings self)) = false ->
            username r' = Some (token (self_settings self)))).
Proof.
  intros Ht Hr Hs Hcheck.
  destruct (token_fits_parts _ Ht) as (T1 & T2 & _).
  rewrite (clone_run env self _ _ _ r Hr).
  destruct (injects r) eqn:Hin.
  - assert (Hu : truthy (username r) = false).
    { unfold injects in Hin. rewrite Hs, String.eqb_refl in Hin.
      cbn [andb] in Hin. now apply negb_true_iff in Hin. }
    eexists. exists (read_back (with_token (token (self_settings self)) r)).
    split; [reflexivity|]. cbn [call_clone_url].
    split; [exact (urlsplit_with_token env _ clone_url r Ht (Hcheck Hu)
                     Hr Hs)|].
    split; [exact Hs|].
    rewrite username_read_back.
    split; [now apply username_with_token|].
    split; [intros Hu'; congruence|].
    intros _. split; [reflexivity|].
    intros Hn Hc. now apply username_of_plain_token.
  - assert (Hu : truthy (username r) = true).
    { unfold injects in Hin. rewrite Hs, String.eqb_refl in Hin.
      cbn [andb] in Hin. now apply negb_false_iff in Hin. }
    pose proof (username_needs_netloc r Hu) as Hn.
    eexists. exists r. split; [reflexivity|].
    cbn [call_clone_url].
    split; [|split; [exact Hs | split; [exact Hu|]]].
    + rewrite (urlsplit_urlunsplit env r).
      * now rewrite (read_back_same env clone_url r Hr Hn).
      * now apply (urlsplit_well_parsed env clone_url).
      * now rewrite Hn.
    + split; [reflexivity | intros Hu'; congruence].
Qed.

(** X18: the token plays no part for a URL that is not https or that names
    a user (nor for one that [urlsplit] rejects): two objects, whatever
    their tokens and payloads, pass on the same URL. *)
Theorem clone_without_token_is_the_same_for_all
    (env : collaborators) (self1 self2 : GithubActionsMainVcs)
    (history_depth : option Z) (destination_directory clone_url : string) :
  (forall r,
      urlsplit env clone_url = Returns r ->
      scheme r <> "https" \/ truthy (username r) = true) ->
  _clone env self1 history_depth destination_directory clone_url
  = _clone env self2 history_depth destination_directory clone_url.
Proof.
  intros Hno. destruct (urlsplit env clone_url) as [r|e] eqn:Hr.
  - assert (Hin : injects r = false).
    { unfold injects. destruct (Hno r eq_refl) as [Hs|Hu].
      - apply String.eqb_neq in Hs. now rewrite Hs.
      - rewrite Hu. apply andb_false_r. }
    now rewrite !(clone_run env _ _ _ _ r Hr), Hin.
  - unfold _clone. now rewrite Hr.
Qed.

Lemma no_unsafe_urlunsplit (r : SplitResult) :
  scheme_settled (scheme r) ->
  no_unsafe (netloc r) = true -> no_unsafe (path r) = true ->
  no_unsafe (query r) = true -> no_unsafe (fragment r) = true ->
  no_unsafe (urlunsplit r) = true.
Proof.
  intros Hs Hn Hp Hq Hf. rewrite urlunsplit_form, !no_unsafe_app.
  rewrite (no_unsafe_scheme _ Hs), (no_unsafe_with_query _ Hq),
    (no_unsafe_with_fragment _ Hf).
  destruct (authority_written r).
  - change ("//" ++ netloc r ++ rooted (path r))
      with ("//" ++ (netloc r ++ rooted (path r))).
    now rewrite !no_unsafe_app, Hn, (no_unsafe_rooted _ Hp).
  - now rewrite Hp.
Qed.

(** X19: with a token that has no tab, carriage return or newline, the URL
    [_clone] passes on has none, whatever the URL given had. *)
Theorem clone_url_has_no_line_breaks
    (env : collaborators) (self : GithubActionsMainVcs)
    (history_depth : option Z) (destination_directory clone_url : string)
    (call : clone_call) :
  no_unsafe (token (self_settings self)) = true ->
  _clone env self history_depth destination_directory clone_url
  = Returns call ->
  forall c, In c _UNSAFE_URL_BYTES_TO_REMOVE ->
            in_str c (call_clone_url call) = false.
Proof.
  intros Ht Hrun c Hc.
  assert (Hunsafe : is_unsafe c = true).
  { unfold is_unsafe. apply existsb_exists. exists c.
    split; [exact Hc | apply Ascii.eqb_refl]. }
  apply (no_unsafe_not_in c _ Hunsafe).
  destruct (urlsplit env clone_url) as [r|e] eqn:Hr.
  2:{ unfold _clone in Hrun. rewrite Hr in Hrun. discriminate. }
  rewrite (clone_run env self _ _ _ r Hr) in Hrun.
  injection Hrun as <-. cbn [call_clone_url].
  destruct (urlsplit_well_parsed env clone_url r Hr)
    as [Hs _ _ _ _ _ (Sn & Sp & Sq & Sf) _].
  destruct (injects r).
  - apply no_unsafe_urlunsplit;
      cbn [with_token scheme netloc path query fragment]; auto.
    now rewrite !no_unsafe_app, Ht, Sn.
  - now apply no_unsafe_urlunsplit.
Qed.

(** * Further worked instances *)

(** The HTTP helper fails at the second of three findings: two requests
    were handed over, the third finding got none, and the helper's error
    comes out. *)
Example posting_stops_at_the_first_failure :
  fst (code_report_to_review failing_env sample_self two_findings_report
         quiet_world)
  = Raises (RequestError "502 Bad Gateway")
  /\ map req_json
         (sent (snd (code_report_to_review failing_env sample_self
                       two_findings_report quiet_world)))
     = [JDict [("path", JStr "a.py"); ("commit_id", JStr "abc123");
               ("body", JStr "m"); ("line", JInt 3);
               ("side", JStr "RIGHT")];
        JDict [("path", JStr "a.py"); ("commit_id", JStr "abc123");
               ("body", JStr "n"); ("line", JInt 7);
               ("side", JStr "RIGHT")]].
Proof.
  split; reflexivity.
Qed.


Lemma code_report_to_review_no_files_sample :
  code_report_to_review no_files_env bare_self sample_report quiet_world
  = (Returns tt, quiet_world).
Proof.
  apply (code_report_to_review_without_changed_files
           no_files_env bare_self sample_report "abc123 merge" quiet_world);
    reflexivity.
Defined.

Lemma commit_files_first_line_sample :
  commit_files_of ("abc123 fix" ++ String newline "a.py")
  = split newline "a.py".
Proof.
  apply (commit_files_drop_the_first_line "abc123 fix" "a.py").
  reflexivity.
Defined.

Lemma init_type_error_sample :
  __init__ type_error_env sample_settings "payload" quiet_world
  = (Raises (TypeError JNull), quiet_world).
Proof.
  apply (init_passes_other_exceptions_on
           type_error_env sample_settings "payload" (TypeError JNull)
           quiet_world).
  - reflexivity.
  - intros detail. discriminate.
Defined.

Lemma init_success_sample :
  quiet_world = quiet_world
  /\ json_loads sample_env "payload" = Returns (payload_json constructed_self)
  /\ payload constructed_self = "payload"
  /\ field_of (payload_json constructed_self) ["repository"; "html_url"]
     = Some (repo (self_settings constructed_self))
  /\ field_of (payload_json constructed_self)
       ["pull_request"; "head"; "ref"]
     = Some (refspec (self_settings constructed_self))
  /\ token (self_settings constructed_self) = token sample_settings
  /\ checkout_id (self_settings constructed_self)
     = checkout_id sample_settings.
Proof.
  apply (init_success_establishes
           sample_env sample_settings "payload" constructed_self
           quiet_world quiet_world).
  reflexivity.
Defined.

Lemma clone_upper_case_scheme_sample :
  _clone sample_env sample_self None "dir"
    ("HTTPS" ++ ":" ++ "//github.com/o/r.git")
  = _clone sample_env sample_self None "dir"
      (lower "HTTPS" ++ ":" ++ "//github.com/o/r.git").
Proof.
  apply (clone_scheme_case_insensitive
           sample_env sample_self None "dir" "HTTPS" "//github.com/o/r.git").
  reflexivity.
Defined.

Lemma clone_accepts_sample :
  exists call,
    _clone sample_env sample_self None "dir" sample_clone_url = Returns call.
Proof.
  apply (clone_accepts_urls_without_brackets
           sample_env sample_self None "dir" sample_clone_url);
    reflexivity.
Defined.

(** A netloc that is not ASCII can be rejected without a bracket in it:
    the NFKC form of U+2100 has a slash. *)
Example clone_rejects_account_of_netloc :
  in_str "[" ("https://a" ++ account_of ++ "b/x") = false
  /\ in_str "]" ("https://a" ++ account_of ++ "b/x") = false
  /\ _clone sample_env sample_self None "dir"
       ("https://a" ++ account_of ++ "b/x")
     = Raises (ValueError ("netloc 'a" ++ account_of ++ "b' contains invalid "
                           ++ "characters under NFKC normalization")).
Proof.
  repeat split; reflexivity.
Qed.

Lemma clone_keeps_components_sample :
  exists call,
    _clone sample_env sample_self None "dir" ssh_clone_url = Returns call
    /\ urlsplit sample_env (call_clone_url call) = Returns ssh_split.
Proof.
  apply (clone_keeps_components
           sample_env sample_self None "dir" ssh_clone_url ssh_split).
  - reflexivity.
  - left. discriminate.
  - reflexivity.
Defined.

Lemma clone_https_names_a_user_sample :
  exists call r',
    _clone sample_env sample_self None "dir" sample_clone_url = Returns call
    /\ urlsplit sample_env (call_clone_url call) = Returns r'
    /\ scheme r' = "https"
    /\ truthy (username r') = true
    /\ (truthy (username sample_split) = true -> r' = sample_split)
    /\ (truthy (username sample_split) = false ->
        netloc r' = "tok@github.com"
        /\ (in_str "@" "github.com" = false -> in_str ":" "tok" = false ->
            username r' = Some "tok")).
Proof.
  apply (clone_https_names_a_user
           sample_env sample_self None "dir" sample_clone_url sample_split).
  - reflexivity.
  - reflexivity.
  - reflexivity.
  - intros _. reflexivity.
Defined.

(** A password without a name in front: the token goes in, and the user
    the URL then names is the token followed by [@]. *)
Example clone_url_password_without_name :
  urlsplit sample_env "https://:pw@host/r.git"
  = Returns {| scheme := "https"; netloc := ":pw@host"; path := "/r.git";
               query := ""; fragment := "" |}
  /\ username {| scheme := "https"; netloc := ":pw@host"; path := "/r.git";
                 query := ""; fragment := "" |} = Some ""
  /\ _clone sample_env sample_self None "dir" "https://:pw@host/r.git"
     = Returns {| call_history_depth := None;
                  call_destination_directory := "dir";
                  call_clone_url := "https://tok@:pw@host/r.git" |}
  /\ urlsplit sample_env "https://tok@:pw@host/r.git"
     = Returns {| scheme := "https"; netloc := "tok@:pw@host";
                  path := "/r.git"; query := ""; fragment := "" |}
  /\ username {| scheme := "https"; netloc := "tok@:pw@host";
                 path := "/r.git"; query := ""; fragment := "" |}
     = Some "tok@".
Proof.
  repeat split; reflexivity.
Qed.

Lemma clone_without_token_sample :
  _clone sample_env sample_self None "dir" ssh_clone_url
  = _clone sample_env slash_token_self None "dir" ssh_clone_url.
Proof.
  apply (clone_without_token_is_the_same_for_all
           sample_env sample_self slash_token_self None "dir" ssh_clone_url).
  intros r H. left.
  assert (E : r = ssh_split).
  { change (urlsplit sample_env ssh_clone_url) with (Returns ssh_split) in H.
    now injection H. }
  rewrite E. discriminate.
Defined.

Lemma clone_url_line_breaks_sample :
  in_str (ascii_of_nat 9) "https://tok@github.com/o/r.git" = false
  /\ in_str (ascii_of_nat 13) "https://tok@github.com/o/r.git" = false
  /\ in_str (ascii_of_nat 10) "https://tok@github.com/o/r.git" = false.
Proof.
  pose proof (clone_url_has_no_line_breaks
                sample_env sample_self None "dir"
                (String (ascii_of_nat 9) sample_clone_url)
                {| call_history_depth := None;
                   call_destination_directory := "dir";
                   call_clone_url := "https://tok@github.com/o/r.git" |}
                eq_refl eq_refl) as H.
  repeat split; apply H; cbn [In _UNSAFE_URL_BYTES_TO_REMOVE]; auto.
Defined.

Lemma clone_ignores_white_space_sample :
  _clone sample_env sample_self None "dir" (" " ++ sample_clone_url)
  = _clone sample_env sample_self None "dir" sample_clone_url
  /\ _clone sample_env sample_self None "dir"
       ("https://github.com" ++ String newline "/o/r.git")
     = _clone sample_env sample_self None "dir"
         ("https://github.com" ++ "/o/r.git").
Proof.
  destruct (clone_ignores_stripped_characters
              sample_env sample_self None "dir") as [Hfront Hinside].
  split.
  - apply Hfront. reflexivity.
  - apply Hinside. right. right. left. reflexivity.
Defined.
